(** * compound-grow-calc: the salary and compound-interest formulas

    A shallow embedding of the two calculators of the repository,
    [NetSalaryCalculator] and [CompoundInterestCalculator], followed by the
    properties of their formulas.

    Numbers.  A JavaScript number is modelled by an exact rational ([Q]):
    the formulas are read as the decimal arithmetic they denote and the
    rounding of IEEE-754 doubles (with the absorption of small terms, the
    overflow and the underflow it brings) is not modelled.  A value that is
    not a finite number in that reading (the quotient of a division by
    zero, zero raised to a negative power, the numeric value of a function
    object) is [None] in the type [number].  The fields the forms fill with
    [parseInt] (children, disability percentages, frequency, years) are
    integers ([Z]). *)

From Stdlib Require Import QArith Qminmax Qpower Lqa ZArith Lia.
From Stdlib Require Import String List Bool.
Import ListNotations.

Open Scope Q_scope.

(** ** JavaScript values and operators used by the source *)

Module JS.

(** [None]: not a finite number. *)
Definition number : Type := option Q.

Definition bind (x : number) (f : Q -> number) : number :=
  match x with
  | Some q => f q
  | None => None
  end.

(** The comparison operators on finite numbers. *)
Definition leb (x y : Q) : bool := Qle_bool x y.
Definition ltb (x y : Q) : bool := negb (Qle_bool y x).
Definition gtb (x y : Q) : bool := negb (Qle_bool x y).

(** [Math.min], [Math.max] on finite numbers. *)
Definition Math_min (x y : Q) : Q := Qmin x y.
Definition Math_max (x y : Q) : Q := Qmax x y.

(** [x / y] for a divisor that is not a literal: a division by zero leaves
    the finite numbers.  (A division by a non-zero literal, [x / 12] or
    [x / 100], is written with the quotient of [Q].) *)
Definition div (x y : Q) : number :=
  if Qeq_bool y 0 then None else Some (x / y).

(** [Math.pow(b, e)] for an integer exponent: zero to a negative power
    leaves the finite numbers. *)
Definition Math_pow (b : Q) (e : Z) : number :=
  if Qeq_bool b 0 && (e <? 0)%Z then None else Some (Qpower b e).

(** An upper bound that may be [Infinity]. *)
Inductive bound : Type :=
| Finite (q : Q)
| Infinity.

Definition min_bound (x : Q) (b : bound) : Q :=
  match b with
  | Finite q => Math_min x q
  | Infinity => x
  end.

(** The values a property read [obj[key]] on an object literal of numbers
    can produce: a number, [undefined], or a function or object found on
    the prototype chain. *)
Inductive value : Type :=
| JNumber (q : Q)
| JUndefined
| JObject.

Definition truthy (v : value) : bool :=
  match v with
  | JNumber q => negb (Qeq_bool q 0)
  | JUndefined => false
  | JObject => true
  end.

(** [a || b] *)
Definition or (a b : value) : value := if truthy a then a else b.

(** Numeric conversion of an operand of [*]: a function or object has no
    finite numeric value, and neither has [undefined]. *)
Definition ToNumber (v : value) : number :=
  match v with
  | JNumber q => Some q
  | JUndefined => None
  | JObject => None
  end.

(** The property names every object literal inherits from
    [Object.prototype]; each of them reads as a function or an object. *)
Definition Object_prototype_keys : list string :=
  [ "constructor"; "hasOwnProperty"; "isPrototypeOf";
    "propertyIsEnumerable"; "toLocaleString"; "toString"; "valueOf";
    "__proto__"; "__defineGetter__"; "__defineSetter__";
    "__lookupGetter__"; "__lookupSetter__" ]%string.

Definition inherited (key : string) : bool :=
  existsb (String.eqb key) Object_prototype_keys.

Fixpoint own_property {A : Type} (obj : list (string * A)) (key : string)
  : option A :=
  match obj with
  | [] => None
  | (k, v) :: rest => if String.eqb k key then Some v else own_property rest key
  end.

(** [obj[key]] on an object literal whose own properties are [obj]. *)
Definition get (obj : list (string * Q)) (key : string) : value :=
  match own_property obj key with
  | Some q => JNumber q
  | None => if inherited key then JObject else JUndefined
  end.

(** [obj.key = v] on a [Record<string, string>]: the last write wins. *)
Fixpoint set (obj : list (string * string)) (key v : string)
  : list (string * string) :=
  match obj with
  | [] => [(key, v)]
  | (k, w) :: rest =>
      if String.eqb k key then (k, v) :: rest else (k, w) :: set rest key v
  end.

(** [Object.keys(obj).length === 0] *)
Definition no_keys {A : Type} (obj : list (string * A)) : bool :=
  match obj with
  | [] => true
  | _ :: _ => false
  end.

End JS.

Notation "x <- c ;; k" := (JS.bind c (fun x => k))
  (at level 61, c at next level, right associativity).

(** ** The net salary calculator *)

Module NetSalaryCalculator.
Import JS.

Inductive PayFrequency : Type := monthly | biweekly | weekly | daily.

Inductive MaritalStatus : Type :=
| single
| married_no_income
| married_with_income.

Record SalaryParams : Type := {
  grossSalary : Q;
  payFrequency : PayFrequency;
  region : string;
  maritalStatus : MaritalStatus;
  childrenUnder25 : Z;
  childrenOver25 : Z;
  workerDisability : Z;
  familyDisability : Z
}.

Record SalaryResult : Type := {
  grossAnnual : Q;
  grossPeriodic : number;
  socialSecurityContribution : Q;
  employerSocialSecurity : Q;
  meiWorker : Q;
  meiEmployer : Q;
  solidarityQuotaWorker : Q;
  solidarityQuotaEmployer : Q;
  irpfRetention : number;
  netAnnual : number;
  netPeriodic : number;
  periodName : string;
  periodsPerYear : Q
}.

Definition SPANISH_REGIONS : list (string * string) :=
  [ ("AN", "Andalucía"); ("AR", "Aragón"); ("AS", "Asturias");
    ("IB", "Islas Baleares"); ("CN", "Canarias"); ("CB", "Cantabria");
    ("CL", "Castilla y León"); ("CM", "Castilla-La Mancha");
    ("CT", "Cataluña"); ("VC", "Comunidad Valenciana");
    ("EX", "Extremadura"); ("GA", "Galicia"); ("MD", "Madrid");
    ("MC", "Murcia"); ("NV", "Navarra"); ("PV", "País Vasco");
    ("LR", "La Rioja"); ("CE", "Ceuta"); ("ML", "Melilla") ]%string.

Record Bracket : Type := { min : Q; max : bound; rate : Q }.

Definition IRPF_BRACKETS : list Bracket :=
  [ {| min := 0;      max := Finite 12450;  rate := 0.19 |};
    {| min := 12450;  max := Finite 20200;  rate := 0.24 |};
    {| min := 20200;  max := Finite 35200;  rate := 0.30 |};
    {| min := 35200;  max := Finite 60000;  rate := 0.37 |};
    {| min := 60000;  max := Finite 300000; rate := 0.47 |};
    {| min := 300000; max := Infinity;      rate := 0.47 |} ].

(** The component's state: the form parameters, the last result and the
    last validation errors. *)
Record State : Type := {
  params : SalaryParams;
  result : option SalaryResult;
  errors : list (string * string)
}.

Definition setErrors (e : list (string * string)) (st : State) : State :=
  {| params := params st; result := result st; errors := e |}.

Definition setResult (r : SalaryResult) (st : State) : State :=
  {| params := params st; result := Some r; errors := errors st |}.

(** The error record [validateInputs] builds, one guarded write after the
    other. *)
Definition newErrors (params : SalaryParams) : list (string * string) :=
  let e := [] in
  let e := if leb (grossSalary params) 0
           then set e "grossSalary" "El salario bruto debe ser mayor que 0"
           else e in
  let e := if gtb (grossSalary params) 1000000
           then set e "grossSalary" "El salario bruto no puede exceder 1.000.000€"
           else e in
  let e := if (childrenUnder25 params <? 0)%Z
           then set e "childrenUnder25" "Número de hijos no puede ser negativo"
           else e in
  let e := if (childrenOver25 params <? 0)%Z
           then set e "childrenOver25" "Número de hijos no puede ser negativo"
           else e in
  let e := if (workerDisability params <? 0)%Z
              || (workerDisability params >? 100)%Z
           then set e "workerDisability"
                  "El porcentaje de discapacidad debe estar entre 0 y 100"
           else e in
  let e := if (familyDisability params <? 0)%Z
              || (familyDisability params >? 100)%Z
           then set e "familyDisability"
                  "El porcentaje de discapacidad debe estar entre 0 y 100"
           else e in
  let e := if String.eqb (region params) ""
           then set e "region" "Debe seleccionar una comunidad autónoma"
           else e in
  e.

(** [validateInputs]: stores the errors and tells whether there are none. *)
Definition validateInputs (st : State) : bool * State :=
  let e := newErrors (params st) in
  (no_keys e, setErrors e st).

Definition calculateSocialSecurity (grossSalary : Q) : Q :=
  let ssBase := Math_min grossSalary 53760 in
  let commonContingencies := ssBase * 0.047 in
  let unemployment := ssBase * 0.0155 in
  let training := ssBase * 0.001 in
  commonContingencies + unemployment + training.

Definition calculateEmployerSocialSecurity (grossSalary : Q) : Q :=
  let ssBase := Math_min grossSalary 53760 in
  let commonContingencies := ssBase * 0.236 in
  let unemployment := ssBase * 0.055 in
  let training := ssBase * 0.006 in
  let workplaceAccidents := ssBase * 0.0065 in
  let fogasa := ssBase * 0.002 in
  commonContingencies + unemployment + training + workplaceAccidents + fogasa.

Definition getRegionMultiplier (region : string) : value :=
  let multipliers : list (string * Q) :=
    [ ("MD", 1.0); ("CT", 1.05); ("AN", 0.95); ("VC", 1.02);
      ("PV", 0.90); ("NV", 0.88); ("CN", 0.92) ]%string in
  or (get multipliers region) (JNumber 1.0).

(** The first half of [calculateIRPF]: the personal and family minimum,
    built by the successive [+=] of the source. *)
Definition personalMinimum (params : SalaryParams) : Q :=
  let personalMinimum := 5550 in
  let personalMinimum :=
    match maritalStatus params with
    | married_no_income => personalMinimum + 3400
    | _ => personalMinimum
    end in
  let totalChildren := (childrenUnder25 params + childrenOver25 params)%Z in
  let personalMinimum :=
    if (totalChildren >=? 1)%Z then personalMinimum + 2400
    else personalMinimum in
  let personalMinimum :=
    if (totalChildren >=? 2)%Z then personalMinimum + 2700
    else personalMinimum in
  let personalMinimum :=
    if (totalChildren >=? 3)%Z then personalMinimum + 4000
    else personalMinimum in
  let personalMinimum :=
    if (totalChildren >=? 4)%Z
    then personalMinimum + inject_Z ((totalChildren - 3) * 4500)
    else personalMinimum in
  let personalMinimum :=
    if (workerDisability params >=? 33)%Z
    then personalMinimum
         + (if (workerDisability params >=? 65)%Z then 9000 else 3000)
    else personalMinimum in
  let personalMinimum :=
    if (familyDisability params >=? 33)%Z
    then personalMinimum
         + (if (familyDisability params >=? 65)%Z then 9000 else 3000)
    else personalMinimum in
  personalMinimum.

Definition taxableBase (grossSalary socialSecurity : Q)
    (params : SalaryParams) : Q :=
  let taxableIncome := grossSalary - socialSecurity in
  Math_max 0 (taxableIncome - personalMinimum params).

(** The loop over [IRPF_BRACKETS]; [tax] is the accumulator. *)
Fixpoint bracketTax (brackets : list Bracket) (taxableBase tax : Q) : Q :=
  match brackets with
  | [] => tax
  | bracket :: rest =>
      let tax :=
        if gtb taxableBase (min bracket)
        then
          let taxableInBracket :=
            min_bound taxableBase (max bracket) - min bracket in
          tax + taxableInBracket * rate bracket
        else tax in
      bracketTax rest taxableBase tax
  end.

Definition calculateIRPF (grossSalary socialSecurity : Q)
    (params : SalaryParams) : number :=
  let taxableBase := taxableBase grossSalary socialSecurity params in
  let tax := bracketTax IRPF_BRACKETS taxableBase 0 in
  let regionMultiplier := getRegionMultiplier (region params) in
  m <- ToNumber regionMultiplier ;;
  Some (tax * m).

Definition getPeriodsPerYear (frequency : PayFrequency) : Q :=
  match frequency with
  | monthly => 12
  | biweekly => 26
  | weekly => 52
  | daily => 365
  end.

Definition getPeriodName (frequency : PayFrequency) : string :=
  match frequency with
  | monthly => "mes"
  | biweekly => "quincena"
  | weekly => "semana"
  | daily => "día"
  end.

Record MEI : Type := { mei_meiEmployer : Q; mei_meiWorker : Q }.

Definition calculateMEI (grossSalary : Q) : MEI :=
  let ssBase := Math_min grossSalary 53760 in
  let meiEmployer := ssBase * 0.0067 in
  let meiWorker := ssBase * 0.0013 in
  {| mei_meiEmployer := meiEmployer; mei_meiWorker := meiWorker |}.

Record SolidarityQuota : Type := {
  sq_solidarityQuotaEmployer : Q;
  sq_solidarityQuotaWorker : Q
}.

Definition calculateSolidarityQuota (grossSalary : Q) : SolidarityQuota :=
  let maxBase2025 := 58908 in
  if leb grossSalary maxBase2025
  then {| sq_solidarityQuotaEmployer := 0; sq_solidarityQuotaWorker := 0 |}
  else
    let excessSalary := grossSalary - maxBase2025 in
    let monthlyExcess := excessSalary / 12 in
    let totalQuota := 0 in
    let firstBracketLimit := (4909 * 0.1) * 12 in
    let totalQuota :=
      if gtb excessSalary 0
      then
        let firstBracketAmount := Math_min excessSalary firstBracketLimit in
        totalQuota + firstBracketAmount * 0.0092
      else totalQuota in
    let secondBracketLimit := (4909 * 0.4) * 12 in
    let totalQuota :=
      if gtb excessSalary firstBracketLimit
      then
        let secondBracketAmount :=
          Math_min (excessSalary - firstBracketLimit) secondBracketLimit in
        totalQuota + secondBracketAmount * 0.01
      else totalQuota in
    let totalQuota :=
      if gtb excessSalary (firstBracketLimit + secondBracketLimit)
      then
        let thirdBracketAmount :=
          excessSalary - firstBracketLimit - secondBracketLimit in
        totalQuota + thirdBracketAmount * 0.0117
      else totalQuota in
    {| sq_solidarityQuotaEmployer := totalQuota * 0.8339;
       sq_solidarityQuotaWorker := totalQuota * 0.1661 |}.

(** The record [calculateSalary] stores once validation has passed. *)
Definition calculationResult (params : SalaryParams) : SalaryResult :=
  let grossAnnual := grossSalary params in
  let socialSecurity := calculateSocialSecurity grossAnnual in
  let employerSS := calculateEmployerSocialSecurity grossAnnual in
  let mei := calculateMEI grossAnnual in
  let sq := calculateSolidarityQuota grossAnnual in
  let totalWorkerContributions :=
    socialSecurity + mei_meiWorker mei + sq_solidarityQuotaWorker sq in
  let irpf := calculateIRPF grossAnnual totalWorkerContributions params in
  let netAnnual :=
    i <- irpf ;; Some (grossAnnual - totalWorkerContributions - i) in
  let periodsPerYear := getPeriodsPerYear (payFrequency params) in
  let grossPeriodic := div grossAnnual periodsPerYear in
  let netPeriodic := n <- netAnnual ;; div n periodsPerYear in
  let periodName := getPeriodName (payFrequency params) in
  {| grossAnnual := grossAnnual;
     grossPeriodic := grossPeriodic;
     socialSecurityContribution := socialSecurity;
     employerSocialSecurity := employerSS;
     meiWorker := mei_meiWorker mei;
     meiEmployer := mei_meiEmployer mei;
     solidarityQuotaWorker := sq_solidarityQuotaWorker sq;
     solidarityQuotaEmployer := sq_solidarityQuotaEmployer sq;
     irpfRetention := irpf;
     netAnnual := netAnnual;
     netPeriodic := netPeriodic;
     periodName := periodName;
     periodsPerYear := periodsPerYear |}.

Definition calculateSalary (st : State) : State :=
  let (ok, st) := validateInputs st in
  if negb ok then st
  else setResult (calculationResult (params st)) st.

End NetSalaryCalculator.

(** ** The compound interest calculator *)

Module CompoundInterestCalculator.
Import JS.

Inductive DepositTiming : Type := beginning | end_.

Record CalculationParams : Type := {
  initialBalance : Q;
  periodicDeposit : Q;
  frequency : Z;
  depositTiming : DepositTiming;
  annualInterestRate : Q;
  years : Z
}.

Record YearlyData : Type := {
  year : Z;
  balance : number;
  interest : number;
  deposits : Q
}.

Record CalculationResult : Type := {
  futureValue : number;
  totalDeposits : Q;
  totalInterest : number;
  yearlyData : list YearlyData
}.

Record State : Type := {
  params : CalculationParams;
  result : option CalculationResult;
  errors : list (string * string)
}.

Definition setErrors (e : list (string * string)) (st : State) : State :=
  {| params := params st; result := result st; errors := e |}.

Definition setResult (r : CalculationResult) (st : State) : State :=
  {| params := params st; result := Some r; errors := errors st |}.

Definition newErrors (params : CalculationParams) : list (string * string) :=
  let e := [] in
  let e := if ltb (initialBalance params) 0
           then set e "initialBalance" "El balance inicial no puede ser negativo"
           else e in
  let e := if ltb (periodicDeposit params) 0
           then set e "periodicDeposit"
                  "El depósito periódico no puede ser negativo"
           else e in
  let e := if ltb (annualInterestRate params) 0
           then set e "annualInterestRate"
                  "La tasa de interés no puede ser negativa"
           else e in
  let e := if (years params <=? 0)%Z
           then set e "years" "La duración debe ser mayor a 0"
           else e in
  e.

Definition validateInputs (st : State) : bool * State :=
  let e := newErrors (params st) in
  (no_keys e, setErrors e st).

(** The values [year] takes in [for (let year = 0; year <= years; year++)]. *)
Definition loopYears (years : Z) : list Z :=
  map Z.of_nat (seq 0 (Z.to_nat (years + 1))).

(** One turn of the loop that fills [yearlyData]. *)
Definition yearlyEntry (params : CalculationParams) (r : Q) (year : Z)
  : YearlyData :=
  let n := frequency params in
  let yearlyPrincipal :=
    rn <- div r (inject_Z n) ;;
    p <- Math_pow (1 + rn) (n * year) ;;
    Some (initialBalance params * p) in
  let yearlyDepositsValue :=
    if gtb (periodicDeposit params) 0 && (year >? 0)%Z
    then
      if gtb r 0
      then
        rn <- div r (inject_Z n) ;;
        p <- Math_pow (1 + rn) (n * year) ;;
        v <- div (periodicDeposit params * (p - 1)) rn ;;
        match depositTiming params with
        | beginning => Some (v * (1 + rn))
        | end_ => Some v
        end
      else Some (periodicDeposit params * inject_Z n * inject_Z year)
    else Some 0 in
  let balance :=
    a <- yearlyPrincipal ;; b <- yearlyDepositsValue ;; Some (a + b) in
  let depositsToDate :=
    initialBalance params
    + (periodicDeposit params * inject_Z n * inject_Z year) in
  let interestEarned := b <- balance ;; Some (b - depositsToDate) in
  {| year := year;
     balance := balance;
     interest := interestEarned;
     deposits := depositsToDate |}.

(** The record [calculateCompoundInterest] stores once validation has
    passed. *)
Definition calculation (params : CalculationParams) : CalculationResult :=
  let r := annualInterestRate params / 100 in
  let n := frequency params in
  let t := years params in
  let fvPrincipal :=
    rn <- div r (inject_Z n) ;;
    p <- Math_pow (1 + rn) (n * t) ;;
    Some (initialBalance params * p) in
  let fvDeposits :=
    if gtb (periodicDeposit params) 0 && gtb r 0
    then
      rn <- div r (inject_Z n) ;;
      p <- Math_pow (1 + rn) (n * t) ;;
      v <- div (periodicDeposit params * (p - 1)) rn ;;
      match depositTiming params with
      | beginning => Some (v * (1 + rn))
      | end_ => Some v
      end
    else if gtb (periodicDeposit params) 0
    then Some (periodicDeposit params * inject_Z n * inject_Z t)
    else Some 0 in
  let futureValue := a <- fvPrincipal ;; b <- fvDeposits ;; Some (a + b) in
  let totalDeposits :=
    initialBalance params
    + (periodicDeposit params * inject_Z n * inject_Z t) in
  let totalInterest := f <- futureValue ;; Some (f - totalDeposits) in
  let yearlyData := map (yearlyEntry params r) (loopYears (years params)) in
  {| futureValue := futureValue;
     totalDeposits := totalDeposits;
     totalInterest := totalInterest;
     yearlyData := yearlyData |}.

Definition calculateCompoundInterest (st : State) : State :=
  let (ok, st) := validateInputs st in
  if negb ok then st
  else setResult (calculation (params st)) st.

End CompoundInterestCalculator.

(** ** Vocabulary of the properties *)

Module Terms.
Import JS NetSalaryCalculator.

(** [params] with the two children fields replaced. *)
Definition withChildren (params : SalaryParams) (under25 over25 : Z)
  : SalaryParams :=
  {| grossSalary := grossSalary params;
     payFrequency := payFrequency params;
     region := region params;
     maritalStatus := maritalStatus params;
     childrenUnder25 := under25;
     childrenOver25 := over25;
     workerDisability := workerDisability params;
     familyDisability := familyDisability params |}.

(** [params] with the region replaced. *)
Definition withRegion (params : SalaryParams) (code : string)
  : SalaryParams :=
  {| grossSalary := grossSalary params;
     payFrequency := payFrequency params;
     region := code;
     maritalStatus := maritalStatus params;
     childrenUnder25 := childrenUnder25 params;
     childrenOver25 := childrenOver25 params;
     workerDisability := workerDisability params;
     familyDisability := familyDisability params |}.

(** What the children add to the personal minimum [calculateIRPF]
    computes: the minimum of [params] less the minimum of the same
    parameters without children. *)
Definition childAllowance (params : SalaryParams) : Q :=
  personalMinimum params - personalMinimum (withChildren params 0 0).

(** The child allowance in the words of the specification: one tier per
    child count, the tiers not added up. *)
Definition tieredAllowance (totalChildren : Z) : Q :=
  if (totalChildren <=? 0)%Z then 0
  else if (totalChildren =? 1)%Z then 2400
  else if (totalChildren =? 2)%Z then 2700
  else if (totalChildren =? 3)%Z then 4000
  else 4000 + 4500 * inject_Z (totalChildren - 3).

(** Worker plus employer share of the solidarity quota. *)
Definition totalSolidarityQuota (grossAnnual : Q) : Q :=
  sq_solidarityQuotaWorker (calculateSolidarityQuota grossAnnual)
  + sq_solidarityQuotaEmployer (calculateSolidarityQuota grossAnnual).

(** The nineteen region codes of the form. *)
Definition regionCodes : list string := map fst SPANISH_REGIONS.

(** The codes that are keys of the multiplier table. *)
Definition keyedRegions : list string :=
  [ "MD"; "CT"; "AN"; "VC"; "PV"; "NV"; "CN" ]%string.

(** The other twelve codes of the form. *)
Definition otherRegions : list string :=
  [ "AR"; "AS"; "IB"; "CB"; "CL"; "CM"; "EX"; "GA"; "MC"; "LR"; "CE";
    "ML" ]%string.

(** A salary input as the data model has it: it passes [validateInputs]
    and its region is one of the nineteen codes. *)
Definition validSalaryInput (params : SalaryParams) : Prop :=
  newErrors params = [] /\ In (region params) regionCodes.

(** What the bracket loop relies on: a bracket starts at or above zero, has
    a rate that is not negative and does not end below its start. *)
Definition wellFormedBracket (b : Bracket) : Prop :=
  0 <= min b /\ 0 <= rate b
  /\ match max b with
     | Finite q => min b <= q
     | Infinity => True
     end.

Definition sampleParams : SalaryParams :=
  {| grossSalary := 35000;
     payFrequency := monthly;
     region := "MD";
     maritalStatus := single;
     childrenUnder25 := 0;
     childrenOver25 := 0;
     workerDisability := 0;
     familyDisability := 0 |}.

End Terms.

(** ** Variants of the form parameters *)

Module Variants.
Import JS.

(** Salary parameters with the gross salary replaced. *)
Definition withGrossSalary (params : NetSalaryCalculator.SalaryParams)
    (gross : Q) : NetSalaryCalculator.SalaryParams :=
  {| NetSalaryCalculator.grossSalary := gross;
     NetSalaryCalculator.payFrequency :=
       NetSalaryCalculator.payFrequency params;
     NetSalaryCalculator.region := NetSalaryCalculator.region params;
     NetSalaryCalculator.maritalStatus :=
       NetSalaryCalculator.maritalStatus params;
     NetSalaryCalculator.childrenUnder25 :=
       NetSalaryCalculator.childrenUnder25 params;
     NetSalaryCalculator.childrenOver25 :=
       NetSalaryCalculator.childrenOver25 params;
     NetSalaryCalculator.workerDisability :=
       NetSalaryCalculator.workerDisability params;
     NetSalaryCalculator.familyDisability :=
       NetSalaryCalculator.familyDisability params |}.

(** Salary parameters with the marital status replaced. *)
Definition withMaritalStatus (params : NetSalaryCalculator.SalaryParams)
    (status : NetSalaryCalculator.MaritalStatus)
  : NetSalaryCalculator.SalaryParams :=
  {| NetSalaryCalculator.grossSalary :=
       NetSalaryCalculator.grossSalary params;
     NetSalaryCalculator.payFrequency :=
       NetSalaryCalculator.payFrequency params;
     NetSalaryCalculator.region := NetSalaryCalculator.region params;
     NetSalaryCalculator.maritalStatus := status;
     NetSalaryCalculator.childrenUnder25 :=
       NetSalaryCalculator.childrenUnder25 params;
     NetSalaryCalculator.childrenOver25 :=
       NetSalaryCalculator.childrenOver25 params;
     NetSalaryCalculator.workerDisability :=
       NetSalaryCalculator.workerDisability params;
     NetSalaryCalculator.familyDisability :=
       NetSalaryCalculator.familyDisability params |}.

(** Salary parameters with the two disability percentages replaced. *)
Definition withDisability (params : NetSalaryCalculator.SalaryParams)
    (worker family : Z) : NetSalaryCalculator.SalaryParams :=
  {| NetSalaryCalculator.grossSalary :=
       NetSalaryCalculator.grossSalary params;
     NetSalaryCalculator.payFrequency :=
       NetSalaryCalculator.payFrequency params;
     NetSalaryCalculator.region := NetSalaryCalculator.region params;
     NetSalaryCalculator.maritalStatus :=
       NetSalaryCalculator.maritalStatus params;
     NetSalaryCalculator.childrenUnder25 :=
       NetSalaryCalculator.childrenUnder25 params;
     NetSalaryCalculator.childrenOver25 :=
       NetSalaryCalculator.childrenOver25 params;
     NetSalaryCalculator.workerDisability := worker;
     NetSalaryCalculator.familyDisability := family |}.

(** What the two disability tests of [calculateIRPF] add to the personal
    minimum. *)
Definition disabilityAllowance (params : NetSalaryCalculator.SalaryParams)
  : Q :=
  NetSalaryCalculator.personalMinimum params
  - NetSalaryCalculator.personalMinimum (withDisability params 0 0).

(** The worker-side contributions [calculateSalary] deducts before the
    income tax: [socialSecurity + meiWorker + solidarityQuotaWorker]. *)
Definition totalWorkerContributions (grossAnnual : Q) : Q :=
  NetSalaryCalculator.calculateSocialSecurity grossAnnual
  + NetSalaryCalculator.mei_meiWorker
      (NetSalaryCalculator.calculateMEI grossAnnual)
  + NetSalaryCalculator.sq_solidarityQuotaWorker
      (NetSalaryCalculator.calculateSolidarityQuota grossAnnual).

(** The names of the fields [validateInputs] of the salary form reports. *)
Definition salaryFields : list string :=
  [ "grossSalary"; "childrenUnder25"; "childrenOver25"; "workerDisability";
    "familyDisability"; "region" ]%string.

(** Compound interest parameters with the deposit timing replaced. *)
Definition withDepositTiming
    (params : CompoundInterestCalculator.CalculationParams)
    (timing : CompoundInterestCalculator.DepositTiming)
  : CompoundInterestCalculator.CalculationParams :=
  {| CompoundInterestCalculator.initialBalance :=
       CompoundInterestCalculator.initialBalance params;
     CompoundInterestCalculator.periodicDeposit :=
       CompoundInterestCalculator.periodicDeposit params;
     CompoundInterestCalculator.frequency :=
       CompoundInterestCalculator.frequency params;
     CompoundInterestCalculator.depositTiming := timing;
     CompoundInterestCalculator.annualInterestRate :=
       CompoundInterestCalculator.annualInterestRate params;
     CompoundInterestCalculator.years :=
       CompoundInterestCalculator.years params |}.

End Variants.

(** ** What the result card and the charts derive from a salary result *)

Module Display.
Import JS NetSalaryCalculator.

(** The guards of the optional rows of the result card,
    [result.meiWorker > 0 && ...] and the like. *)
Definition showMeiWorker (result : SalaryResult) : bool :=
  gtb (meiWorker result) 0.

Definition showSolidarityQuotaWorker (result : SalaryResult) : bool :=
  gtb (solidarityQuotaWorker result) 0.

Definition showMeiEmployer (result : SalaryResult) : bool :=
  gtb (meiEmployer result) 0.

Definition showSolidarityQuotaEmployer (result : SalaryResult) : bool :=
  gtb (solidarityQuotaEmployer result) 0.

(** The amount of the "Total coste" line of the employer card. *)
Definition totalCoste (result : SalaryResult) : Q :=
  grossAnnual result + employerSocialSecurity result + meiEmployer result
  + solidarityQuotaEmployer result.

(** The three slices of the doughnut chart of [NetSalaryChart]. *)
Definition doughnutData (result : SalaryResult) : list number :=
  [ netAnnual result;
    Some (socialSecurityContribution result);
    irpfRetention result ].

(** The percentage the doughnut tooltip shows for a slice, before
    [toFixed(1)]: [(value / total) * 100] with [total = result.grossAnnual]. *)
Definition doughnutPercentage (result : SalaryResult) (value : number)
  : number :=
  v <- value ;;
  q <- div v (grossAnnual result) ;;
  Some (q * 100).

End Display.

(** ** Comparisons and the option monad *)

Section Reflection.
Import JS.

Lemma leb_spec (x y : Q) : reflect (x <= y) (leb x y).
Proof. unfold leb. apply iff_reflect. symmetry. apply Qle_bool_iff. Qed.

Lemma gtb_spec (x y : Q) : reflect (y < x) (gtb x y).
Proof.
  unfold gtb. destruct (Qle_bool x y) eqn:E; simpl; constructor.
  - apply Qle_bool_iff in E. lra.
  - apply Bool.not_true_iff_false in E. rewrite Qle_bool_iff in E. lra.
Qed.

Lemma ltb_spec (x y : Q) : reflect (x < y) (ltb x y).
Proof. exact (gtb_spec y x). Qed.

Lemma Math_min_l (x y : Q) : x <= y -> Math_min x y == x.
Proof. apply Q.min_l. Qed.

Lemma Math_min_r (x y : Q) : y <= x -> Math_min x y == y.
Proof. apply Q.min_r. Qed.

Lemma Math_max_nonneg (x : Q) : 0 <= Math_max 0 x.
Proof. apply Q.le_max_l. Qed.

Lemma div_nonzero (x y : Q) : ~ y == 0 -> div x y = Some (x / y).
Proof.
  intro H. unfold div. destruct (Qeq_bool y 0) eqn:E; [|reflexivity].
  apply Qeq_bool_iff in E. contradiction.
Qed.

End Reflection.

(** Case analysis on the comparisons and on [Math.min] of a goal. *)
Ltac q_compare :=
  repeat match goal with
  | |- context [JS.leb ?x ?y] => destruct (leb_spec x y)
  | |- context [JS.gtb ?x ?y] => destruct (gtb_spec x y)
  | |- context [JS.ltb ?x ?y] => destruct (ltb_spec x y)
  end.

Ltac q_min :=
  repeat match goal with
  | |- context [JS.Math_min ?x ?y] =>
      let m := fresh "m" in
      let Hm := fresh "Hm" in
      destruct (Q.min_spec x y) as [[? Hm]|[? Hm]];
      change (Qmin x y) with (JS.Math_min x y) in Hm;
      set (m := JS.Math_min x y) in *; clearbody m
  end.

(** ** The embedding on the default form values *)

Section Defaults.
Import JS NetSalaryCalculator CompoundInterestCalculator Terms.

(** A gross salary of 35,000 in Madrid, single, no children: contributions
    of 2,222.50 and 45.50, a taxable base of 27,182 and a withholding of
    12,450 x 0.19 + 7,750 x 0.24 + 6,982 x 0.30 = 6,320.10. *)
Example default_salary_withholding :
  calculateSocialSecurity 35000 == 2222.5
  /\ mei_meiWorker (calculateMEI 35000) == 45.5
  /\ taxableBase 35000 2268 sampleParams == 27182
  /\ exists irpf,
       irpfRetention (calculationResult sampleParams) = Some irpf
       /\ irpf == 6320.1.
Proof.
  repeat split; try reflexivity.
  eexists. split; reflexivity.
Qed.

Example region_multipliers :
  getRegionMultiplier "CT" = JNumber 1.05
  /\ getRegionMultiplier "NV" = JNumber 0.88
  /\ getRegionMultiplier "AR" = JNumber 1.0
  /\ getRegionMultiplier "" = JNumber 1.0.
Proof. repeat split. Qed.

(** The snapshot of year 0 is the initial balance with no interest. *)
Example year_zero_snapshot :
  hd_error
    (yearlyData
       (calculation {| initialBalance := 10000;
                       periodicDeposit := 500;
                       frequency := 12;
                       depositTiming := end_;
                       annualInterestRate := 7;
                       years := 10 |}))
  = Some {| year := 0;
            balance := Some 10000;
            interest := Some 0;
            deposits := 10000 |}.
Proof. vm_compute. reflexivity. Qed.

End Defaults.

(** ** Social security, MEI and the solidarity quota *)

Section Contributions.
Import JS NetSalaryCalculator Terms.

(** Below the cap the base is the salary itself, so the worker contribution
    is the salary times the three rates. *)
Lemma calculateSocialSecurity_below (g : Q) :
  g <= 53760 -> calculateSocialSecurity g == g * 0.0635.
Proof.
  intro H. unfold calculateSocialSecurity. cbv zeta.
  rewrite (Math_min_l g 53760 H). ring.
Qed.

Lemma calculateSocialSecurity_above (g : Q) :
  53760 <= g -> calculateSocialSecurity g == 53760 * 0.0635.
Proof.
  intro H. unfold calculateSocialSecurity. cbv zeta.
  rewrite (Math_min_r g 53760 H). ring.
Qed.

Lemma calculateEmployerSocialSecurity_below (g : Q) :
  g <= 53760 -> calculateEmployerSocialSecurity g == g * 0.3055.
Proof.
  intro H. unfold calculateEmployerSocialSecurity. cbv zeta.
  rewrite (Math_min_l g 53760 H). ring.
Qed.

Lemma calculateMEI_below (g : Q) :
  g <= 53760 ->
  mei_meiWorker (calculateMEI g) == g * 0.0013
  /\ mei_meiEmployer (calculateMEI g) == g * 0.0067.
Proof.
  intro H. unfold calculateMEI. cbv zeta. simpl.
  rewrite (Math_min_l g 53760 H). split; reflexivity.
Qed.

Lemma calculateSolidarityQuota_below (g : Q) :
  g <= 58908 ->
  calculateSolidarityQuota g
  = {| sq_solidarityQuotaEmployer := 0; sq_solidarityQuotaWorker := 0 |}.
Proof.
  intro H. unfold calculateSolidarityQuota. cbv zeta.
  destruct (leb_spec g 58908); [reflexivity | contradiction].
Qed.

(** The total quota above the cap, as a function of the excess. *)
Lemma totalSolidarityQuota_above (g : Q) :
  58908 < g ->
  let e := g - 58908 in
  (e <= 5890.8 -> totalSolidarityQuota g == e * 0.0092)
  /\ (5890.8 < e -> e <= 29454 ->
      totalSolidarityQuota g == 5890.8 * 0.0092 + (e - 5890.8) * 0.01)
  /\ (29454 < e ->
      totalSolidarityQuota g
      == 5890.8 * 0.0092 + 23563.2 * 0.01 + (e - 29454) * 0.0117).
Proof.
  intros H e. subst e.
  unfold totalSolidarityQuota, calculateSolidarityQuota. cbv zeta.
  destruct (leb_spec g 58908); [lra|].
  q_compare; simpl; q_min; repeat split; intros; try lra.
Qed.

End Contributions.

Section ContributionClaims.
Import JS NetSalaryCalculator Terms.

(** C7. From the maximum contribution base of 53,760 upwards the worker
    social-security contribution is the constant 53,760 x 0.0635: the base
    is [Math.min(grossSalary, 53760)], so raising the salary further does
    not change the contribution. *)
Theorem social_security_clamped_at_cap (grossAnnual : Q) :
  53760 <= grossAnnual ->
  calculateSocialSecurity grossAnnual == 53760 * 0.0635
  /\ calculateSocialSecurity grossAnnual == calculateSocialSecurity 53760.
Proof.
  intro H. split.
  - apply calculateSocialSecurity_above, H.
  - rewrite (calculateSocialSecurity_above grossAnnual H).
    symmetry. apply calculateSocialSecurity_above. lra.
Qed.

Lemma social_security_clamped_at_cap_witness :
  calculateSocialSecurity 90000 == 53760 * 0.0635
  /\ calculateSocialSecurity 90000 == calculateSocialSecurity 53760.
Proof.
  apply (social_security_clamped_at_cap 90000).
  unfold Qle; simpl; lia.
Defined.

(** C2, as stated, fails: for a negative gross salary the worker
    contribution is negative, not zero. *)
Lemma negative_gross_contribution_not_zero :
  calculateSocialSecurity (-1000) == -63.5
  /\ ~ calculateSocialSecurity (-1000) == 0.
Proof.
  split.
  - reflexivity.
  - intro H. discriminate H.
Qed.

(** C2, amended. For a gross salary of zero or less the solidarity quota is
    0 for worker and employer; the social-security and MEI amounts are the
    gross salary times their rates, with no clamp at zero: 0 for a gross
    salary of 0 and negative for a negative one. *)
Theorem contributions_at_or_below_zero (grossAnnual : Q) :
  grossAnnual <= 0 ->
  calculateSocialSecurity grossAnnual == grossAnnual * 0.0635
  /\ calculateEmployerSocialSecurity grossAnnual == grossAnnual * 0.3055
  /\ mei_meiWorker (calculateMEI grossAnnual) == grossAnnual * 0.0013
  /\ mei_meiEmployer (calculateMEI grossAnnual) == grossAnnual * 0.0067
  /\ sq_solidarityQuotaWorker (calculateSolidarityQuota grossAnnual) = 0
  /\ sq_solidarityQuotaEmployer (calculateSolidarityQuota grossAnnual) = 0
  /\ (grossAnnual == 0 ->
      calculateSocialSecurity grossAnnual == 0
      /\ calculateEmployerSocialSecurity grossAnnual == 0
      /\ mei_meiWorker (calculateMEI grossAnnual) == 0
      /\ mei_meiEmployer (calculateMEI grossAnnual) == 0)
  /\ (grossAnnual < 0 ->
      calculateSocialSecurity grossAnnual < 0
      /\ calculateEmployerSocialSecurity grossAnnual < 0
      /\ mei_meiWorker (calculateMEI grossAnnual) < 0
      /\ mei_meiEmployer (calculateMEI grossAnnual) < 0).
Proof.
  intro H.
  assert (Hcap : grossAnnual <= 53760) by lra.
  assert (Hsol : grossAnnual <= 58908) by lra.
  pose proof (calculateSocialSecurity_below grossAnnual Hcap) as Hss.
  pose proof (calculateEmployerSocialSecurity_below grossAnnual Hcap) as Hes.
  destruct (calculateMEI_below grossAnnual Hcap) as [Hmw Hme].
  rewrite (calculateSolidarityQuota_below grossAnnual Hsol).
  cbn [sq_solidarityQuotaWorker sq_solidarityQuotaEmployer].
  repeat (split; [first [assumption | reflexivity]|]).
  split; intro H0; repeat split; lra.
Qed.

Lemma contributions_at_or_below_zero_witness :
  calculateSocialSecurity (-1000) == -1000 * 0.0635
  /\ sq_solidarityQuotaWorker (calculateSolidarityQuota (-1000)) = 0.
Proof.
  destruct (contributions_at_or_below_zero (-1000)) as (H1 & _ & _ & _ & H5 & _).
  - unfold Qle; simpl; lia.
  - split; [exact H1 | exact H5].
Defined.

(** C3. The solidarity quota, worker plus employer, is 0 up to a gross
    salary of 58,908 and strictly increasing from there on; at
    58,908 + 5,890.80 it is 5,890.80 x 0.0092, of which the employer bears
    83.39% and the worker 16.61%. *)
Theorem solidarity_quota_zero_then_increasing (g1 g2 : Q) :
  (g1 <= 58908 ->
   totalSolidarityQuota g1 == 0
   /\ sq_solidarityQuotaWorker (calculateSolidarityQuota g1) = 0
   /\ sq_solidarityQuotaEmployer (calculateSolidarityQuota g1) = 0)
  /\ (58908 <= g1 -> g1 < g2 ->
      totalSolidarityQuota g1 < totalSolidarityQuota g2)
  /\ totalSolidarityQuota (58908 + 5890.80) == 5890.80 * 0.0092
  /\ sq_solidarityQuotaEmployer (calculateSolidarityQuota (58908 + 5890.80))
     == 0.8339 * (5890.80 * 0.0092)
  /\ sq_solidarityQuotaWorker (calculateSolidarityQuota (58908 + 5890.80))
     == 0.1661 * (5890.80 * 0.0092).
Proof.
  split; [|split].
  - intro H. unfold totalSolidarityQuota.
    rewrite (calculateSolidarityQuota_below g1 H). simpl.
    repeat split; reflexivity.
  - intros Hlo Hlt.
    assert (H2 : 58908 < g2) by lra.
    destruct (totalSolidarityQuota_above g2 H2) as (A2 & B2 & C2).
    destruct (Qlt_le_dec 58908 g1) as [H1|H1].
    + destruct (totalSolidarityQuota_above g1 H1) as (A1 & B1 & C1).
      destruct (Qlt_le_dec 5890.8 (g1 - 58908)) as [L1|L1];
      [destruct (Qlt_le_dec 29454 (g1 - 58908)) as [M1|M1]|];
      (destruct (Qlt_le_dec 5890.8 (g2 - 58908)) as [L2|L2];
       [destruct (Qlt_le_dec 29454 (g2 - 58908)) as [M2|M2]|]);
      try lra;
      repeat match goal with
      | H : ?P -> _, p : ?P |- _ => specialize (H p)
      end; lra.
    + assert (Z1 : totalSolidarityQuota g1 == 0).
      { unfold totalSolidarityQuota.
        rewrite (calculateSolidarityQuota_below g1 H1). reflexivity. }
      destruct (Qlt_le_dec 5890.8 (g2 - 58908)) as [L2|L2];
      [destruct (Qlt_le_dec 29454 (g2 - 58908)) as [M2|M2]|];
      repeat match goal with
      | H : ?P -> _, p : ?P |- _ => specialize (H p)
      end; lra.
  - repeat split; reflexivity.
Qed.

Lemma solidarity_quota_zero_then_increasing_witness :
  totalSolidarityQuota 50000 == 0
  /\ totalSolidarityQuota 60000 < totalSolidarityQuota 70000.
Proof.
  destruct (solidarity_quota_zero_then_increasing 50000 70000) as ((Z & _) & _).
  - unfold Qle; simpl; lia.
  - destruct (solidarity_quota_zero_then_increasing 60000 70000) as (_ & I & _).
    split; [exact Z|].
    apply I.
    + unfold Qle; simpl; lia.
    + unfold Qlt; simpl; lia.
Defined.

End ContributionClaims.

(** ** The income tax calculator *)

Section PersonalMinimum.
Import JS NetSalaryCalculator Terms.

(** The sum the four child tests of [calculateIRPF] add, by child count. *)
Lemma childAllowance_sum (params : SalaryParams) :
  let n := (childrenUnder25 params + childrenOver25 params)%Z in
  childAllowance params
  == (if (n >=? 1)%Z then 2400 else 0)
     + (if (n >=? 2)%Z then 2700 else 0)
     + (if (n >=? 3)%Z then 4000 else 0)
     + (if (n >=? 4)%Z then inject_Z ((n - 3) * 4500) else 0).
Proof.
  intro n. unfold childAllowance, personalMinimum.
  cbn [withChildren childrenUnder25 childrenOver25 maritalStatus
       workerDisability familyDisability].
  fold n. change (0 + 0)%Z with 0%Z. cbv zeta.
  change (0 >=? 1)%Z with false. change (0 >=? 2)%Z with false.
  change (0 >=? 3)%Z with false. change (0 >=? 4)%Z with false.
  cbv iota.
  destruct (maritalStatus params);
    destruct (workerDisability params >=? 33)%Z;
    destruct (workerDisability params >=? 65)%Z;
    destruct (familyDisability params >=? 33)%Z;
    destruct (familyDisability params >=? 65)%Z;
    destruct (n >=? 1)%Z; destruct (n >=? 2)%Z;
    destruct (n >=? 3)%Z; destruct (n >=? 4)%Z; ring.
Qed.

(** C1, as stated, fails: two children add 2,400 + 2,700 = 5,100 to the
    personal minimum, not the single tier of 2,700. *)
Lemma two_children_add_5100 :
  childAllowance (withChildren sampleParams 1 1) == 5100
  /\ ~ childAllowance (withChildren sampleParams 1 1) == tieredAllowance 2.
Proof.
  split.
  - reflexivity.
  - intro H. discriminate H.
Qed.

(** C1, amended. The child allowance added to the personal minimum
    accumulates over the thresholds reached by the total child count: no
    child adds 0, one adds 2,400, two add 2,400 + 2,700 = 5,100, three add
    2,400 + 2,700 + 4,000 = 9,100, and four or more add 9,100 plus 4,500 for
    each child beyond the third (five children add 18,100). *)
Theorem child_allowance_accumulates (params : SalaryParams) :
  let n := (childrenUnder25 params + childrenOver25 params)%Z in
  ((n <= 0)%Z -> childAllowance params == 0)
  /\ (n = 1%Z -> childAllowance params == 2400)
  /\ (n = 2%Z -> childAllowance params == 5100)
  /\ (n = 3%Z -> childAllowance params == 9100)
  /\ ((4 <= n)%Z ->
      childAllowance params == 9100 + 4500 * inject_Z (n - 3)).
Proof.
  intro n. pose proof (childAllowance_sum params) as H.
  cbv zeta in H. fold n in H.
  repeat split; intro Hn; rewrite H.
  - destruct (Z.geb_spec n 1); [lia|]. destruct (Z.geb_spec n 2); [lia|].
    destruct (Z.geb_spec n 3); [lia|]. destruct (Z.geb_spec n 4); [lia|].
    reflexivity.
  - rewrite Hn. reflexivity.
  - rewrite Hn. reflexivity.
  - rewrite Hn. reflexivity.
  - destruct (Z.geb_spec n 1); [|lia]. destruct (Z.geb_spec n 2); [|lia].
    destruct (Z.geb_spec n 3); [|lia]. destruct (Z.geb_spec n 4); [|lia].
    rewrite inject_Z_mult. change (inject_Z 4500) with 4500. ring.
Qed.

Lemma child_allowance_accumulates_witness :
  childAllowance (withChildren sampleParams 2 3) == 9100 + 4500 * inject_Z 2.
Proof.
  destruct (child_allowance_accumulates (withChildren sampleParams 2 3))
    as (_ & _ & _ & _ & H).
  apply H. simpl. lia.
Defined.

(** C9. [calculateIRPF], and with it the whole result record, reads the
    children fields only through their sum: parameters that differ only in
    how the same total is split between [childrenUnder25] and
    [childrenOver25] give the same withholding and the same result. *)
Theorem irpf_depends_on_children_sum
    (grossSalary socialSecurity : Q) (params : SalaryParams)
    (u1 o1 u2 o2 : Z) :
  (u1 + o1 = u2 + o2)%Z ->
  calculateIRPF grossSalary socialSecurity (withChildren params u1 o1)
  = calculateIRPF grossSalary socialSecurity (withChildren params u2 o2)
  /\ calculationResult (withChildren params u1 o1)
     = calculationResult (withChildren params u2 o2).
Proof.
  intro H.
  assert (Hpm : personalMinimum (withChildren params u1 o1)
                = personalMinimum (withChildren params u2 o2)).
  { unfold personalMinimum.
    cbn [withChildren childrenUnder25 childrenOver25 maritalStatus
         workerDisability familyDisability].
    rewrite H. reflexivity. }
  assert (Hirpf : forall g s,
             calculateIRPF g s (withChildren params u1 o1)
             = calculateIRPF g s (withChildren params u2 o2)).
  { intros g s. unfold calculateIRPF, taxableBase. rewrite Hpm. reflexivity. }
  split.
  - apply Hirpf.
  - unfold calculationResult.
    cbn [withChildren NetSalaryCalculator.grossSalary payFrequency].
    rewrite Hirpf. reflexivity.
Qed.

Lemma irpf_depends_on_children_sum_witness :
  calculateIRPF 35000 2268 (withChildren sampleParams 3 0)
  = calculateIRPF 35000 2268 (withChildren sampleParams 1 2)
  /\ calculationResult (withChildren sampleParams 3 0)
     = calculationResult (withChildren sampleParams 1 2).
Proof.
  apply (irpf_depends_on_children_sum 35000 2268 sampleParams 3 0 1 2).
  reflexivity.
Defined.

End PersonalMinimum.

Section Withholding.
Import JS NetSalaryCalculator Terms.

Lemma IRPF_BRACKETS_wellFormed : Forall wellFormedBracket IRPF_BRACKETS.
Proof.
  unfold IRPF_BRACKETS.
  repeat constructor; cbn [min max rate]; unfold Qle; simpl; lia.
Qed.

(** A taxable base of zero or less enters no bracket. *)
Lemma bracketTax_not_entered (brackets : list Bracket) (base tax : Q) :
  Forall wellFormedBracket brackets ->
  base <= 0 ->
  bracketTax brackets base tax = tax.
Proof.
  intros Hwf Hbase. revert tax.
  induction Hwf as [|b rest (Hmin & _) _ IH]; intro tax; cbn [bracketTax].
  - reflexivity.
  - destruct (gtb_spec base (min b)) as [Hgt|_].
    + lra.
    + apply IH.
Qed.

(** The loop never lowers its accumulator. *)
Lemma bracketTax_ge (brackets : list Bracket) (base tax : Q) :
  Forall wellFormedBracket brackets ->
  tax <= bracketTax brackets base tax.
Proof.
  intro Hwf. revert tax.
  induction Hwf as [|b rest (Hmin & Hrate & Hmax) _ IH]; intro tax;
    cbn [bracketTax].
  - lra.
  - destruct (gtb_spec base (min b)) as [Hgt|_]; [|apply IH].
    eapply Qle_trans; [|apply IH].
    assert (Hin : 0 <= min_bound base (max b) - min b).
    { destruct (max b) as [q|]; cbn [min_bound].
      - destruct (Q.min_spec base q) as [[_ E]|[_ E]];
          unfold Math_min; rewrite E; lra.
      - lra. }
    pose proof (Qmult_le_0_compat _ _ Hin Hrate). lra.
Qed.

(** Every code of the form has a positive numeric multiplier. *)
Lemma getRegionMultiplier_codes :
  Forall (fun code =>
            exists m, getRegionMultiplier code = JNumber m /\ 0 < m)
         regionCodes.
Proof.
  repeat constructor; eexists; (split; [reflexivity|]); reflexivity.
Qed.

Lemma getRegionMultiplier_valid (code : string) :
  In code regionCodes ->
  exists m, getRegionMultiplier code = JNumber m /\ 0 < m.
Proof.
  pose proof getRegionMultiplier_codes as H.
  rewrite Forall_forall in H. apply H.
Qed.

(** With a code of the form the withholding is the bracket tax times the
    multiplier. *)
Lemma calculateIRPF_valid (g s : Q) (params : SalaryParams) :
  In (region params) regionCodes ->
  exists m,
    0 < m
    /\ calculateIRPF g s params
       = Some (bracketTax IRPF_BRACKETS (taxableBase g s params) 0 * m).
Proof.
  intro Hin. destruct (getRegionMultiplier_valid _ Hin) as (m & Hm & Hpos).
  exists m. split; [exact Hpos|].
  unfold calculateIRPF. rewrite Hm. reflexivity.
Qed.

(** A key outside the table and outside the inherited names reads as
    [undefined], which [||] replaces by [1.0]. *)
Lemma getRegionMultiplier_default (code : string) :
  ~ In code keyedRegions ->
  inherited code = false ->
  getRegionMultiplier code = JNumber 1.0.
Proof.
  intros Hkey Hinh. unfold getRegionMultiplier, get.
  assert (Hown : own_property
            [ ("MD", 1.0); ("CT", 1.05); ("AN", 0.95); ("VC", 1.02);
              ("PV", 0.90); ("NV", 0.88); ("CN", 0.92) ]%string code = None).
  { cbn [own_property].
    repeat match goal with
    | |- context [String.eqb ?k code] =>
        destruct (String.eqb_spec k code) as [E|_];
        [exfalso; apply Hkey; rewrite <- E; cbn; tauto|]
    end.
    reflexivity. }
  cbv zeta. rewrite Hown, Hinh. reflexivity.
Qed.

Lemma otherRegions_default (code : string) :
  In code otherRegions ->
  ~ In code keyedRegions /\ inherited code = false.
Proof.
  intro H. cbn [otherRegions In] in H.
  repeat destruct H as [H|H]; try contradiction; subst code;
    (split; [cbn; intuition discriminate | reflexivity]).
Qed.

End Withholding.

Section WithholdingClaims.
Import JS NetSalaryCalculator Terms.

(** C8. The taxable base [Math.max(0, taxableIncome - personalMinimum)] is
    never negative; for a region of the form the withholding is a number
    that is not negative, and it is 0 whenever the taxable income does not
    exceed the personal minimum. *)
Theorem irpf_never_negative
    (grossSalary socialSecurity : Q) (params : SalaryParams) :
  0 <= taxableBase grossSalary socialSecurity params
  /\ (In (region params) regionCodes ->
      exists irpf,
        calculateIRPF grossSalary socialSecurity params = Some irpf
        /\ 0 <= irpf
        /\ (grossSalary - socialSecurity <= personalMinimum params ->
            irpf == 0)).
Proof.
  split.
  - unfold taxableBase. apply Math_max_nonneg.
  - intro Hin.
    destruct (calculateIRPF_valid grossSalary socialSecurity params Hin)
      as (m & Hpos & Hirpf).
    eexists. split; [exact Hirpf|]. split.
    + apply Qmult_le_0_compat; [|lra].
      apply bracketTax_ge, IRPF_BRACKETS_wellFormed.
    + intro Hle.
      rewrite bracketTax_not_entered.
      * ring.
      * apply IRPF_BRACKETS_wellFormed.
      * unfold taxableBase, Math_max. cbv zeta.
        apply Q.max_lub; lra.
Qed.

Lemma irpf_never_negative_witness :
  exists irpf,
    calculateIRPF 5000 317.5 sampleParams = Some irpf
    /\ 0 <= irpf
    /\ (5000 - 317.5 <= personalMinimum sampleParams -> irpf == 0).
Proof.
  destruct (irpf_never_negative 5000 317.5 sampleParams) as [_ H].
  apply H. cbn. tauto.
Defined.


(** Where the default of [getRegionMultiplier] is taken: for every region
    string that is neither one of the seven keyed codes nor the name of a
    property inherited from [Object.prototype] -- so for the twelve other
    codes of the form -- the multiplier is 1.0 and [calculateIRPF] returns
    exactly the Madrid result. *)
Theorem unkeyed_region_gets_madrid_result
    (code : string) (grossSalary socialSecurity : Q) (params : SalaryParams) :
  In code otherRegions
  \/ (~ In code keyedRegions /\ inherited code = false) ->
  getRegionMultiplier code = JNumber 1.0
  /\ calculateIRPF grossSalary socialSecurity (withRegion params code)
     = calculateIRPF grossSalary socialSecurity (withRegion params "MD").
Proof.
  intro H.
  assert (Hd : getRegionMultiplier code = JNumber 1.0).
  { destruct H as [H|[Hk Hi]].
    - destruct (otherRegions_default code H) as [Hk Hi].
      apply getRegionMultiplier_default; assumption.
    - apply getRegionMultiplier_default; assumption. }
  split; [exact Hd|].
  unfold calculateIRPF. cbn [withRegion region].
  rewrite Hd. reflexivity.
Qed.

Lemma unkeyed_region_gets_madrid_result_witness :
  getRegionMultiplier "GA" = JNumber 1.0
  /\ calculateIRPF 35000 2268 (withRegion sampleParams "GA")
     = calculateIRPF 35000 2268 (withRegion sampleParams "MD").
Proof.
  apply (unkeyed_region_gets_madrid_result "GA" 35000 2268 sampleParams).
  left. cbn. tauto.
Defined.

(** C5. For a salary input that passes validation, [calculateSalary] stores
    a result whose net annual salary plus the worker-side deductions
    (social security, MEI, solidarity quota and IRPF) is the gross annual
    salary. *)
Theorem net_plus_deductions_is_gross (st : State) :
  validSalaryInput (params st) ->
  exists r net irpf,
    result (calculateSalary st) = Some r
    /\ grossAnnual r = NetSalaryCalculator.grossSalary (params st)
    /\ irpfRetention r = Some irpf
    /\ netAnnual r = Some net
    /\ net + (socialSecurityContribution r + meiWorker r
              + solidarityQuotaWorker r + irpf)
       == grossAnnual r.
Proof.
  intros [Hval Hreg].
  unfold calculateSalary, validateInputs. rewrite Hval.
  cbn [no_keys negb setErrors setResult params result].
  set (p := params st) in *.
  destruct (calculateIRPF_valid
              (NetSalaryCalculator.grossSalary p)
              (calculateSocialSecurity (NetSalaryCalculator.grossSalary p)
               + mei_meiWorker (calculateMEI (NetSalaryCalculator.grossSalary p))
               + sq_solidarityQuotaWorker
                   (calculateSolidarityQuota (NetSalaryCalculator.grossSalary p)))
              p Hreg) as (m & _ & Hirpf).
  eexists. eexists. eexists.
  split; [reflexivity|].
  unfold calculationResult.
  cbn [grossAnnual irpfRetention netAnnual socialSecurityContribution
       meiWorker solidarityQuotaWorker].
  rewrite Hirpf. cbn [bind].
  repeat (split; [reflexivity|]). ring.
Qed.

Lemma net_plus_deductions_is_gross_witness :
  exists r net irpf,
    result (calculateSalary
              {| params := sampleParams; result := None; errors := [] |})
    = Some r
    /\ grossAnnual r = 35000
    /\ irpfRetention r = Some irpf
    /\ netAnnual r = Some net
    /\ net + (socialSecurityContribution r + meiWorker r
              + solidarityQuotaWorker r + irpf)
       == grossAnnual r.
Proof.
  apply (net_plus_deductions_is_gross
           {| params := sampleParams; result := None; errors := [] |}).
  split.
  - reflexivity.
  - cbn. tauto.
Defined.

End WithholdingClaims.

(** ** The compound interest calculator *)

Section CompoundInterest.
Import JS CompoundInterestCalculator.

(** The years of the loop, written with their last value apart. *)
Lemma loopYears_last (years : Z) :
  (0 <= years)%Z ->
  loopYears years = loopYears (years - 1) ++ [years].
Proof.
  intro H. unfold loopYears.
  replace (Z.to_nat (years + 1)) with (S (Z.to_nat years)) by lia.
  replace (years - 1 + 1)%Z with years by lia.
  rewrite seq_S, map_app. cbn [map Nat.add].
  rewrite Z2Nat.id by exact H. reflexivity.
Qed.

(** With valid inputs [validateInputs] finds nothing to report. *)
Lemma newErrors_valid (p : CalculationParams) :
  0 <= initialBalance p ->
  0 <= periodicDeposit p ->
  0 <= annualInterestRate p ->
  (1 <= years p)%Z ->
  newErrors p = [].
Proof.
  intros Hb Hd Hr Hy. unfold newErrors.
  destruct (ltb_spec (initialBalance p) 0); [lra|].
  destruct (ltb_spec (periodicDeposit p) 0); [lra|].
  destruct (ltb_spec (annualInterestRate p) 0); [lra|].
  destruct (Z.leb_spec (years p) 0); [lia|].
  reflexivity.
Qed.

Lemma calculateCompoundInterest_valid (st : State) :
  newErrors (params st) = [] ->
  result (calculateCompoundInterest st) = Some (calculation (params st)).
Proof.
  intro H. unfold calculateCompoundInterest, validateInputs.
  rewrite H. reflexivity.
Qed.

(** The entry of the last year repeats the final totals. *)
Lemma yearlyEntry_final (p : CalculationParams) :
  (1 <= years p)%Z ->
  let res := calculation p in
  let e := yearlyEntry p (annualInterestRate p / 100) (years p) in
  balance e = futureValue res
  /\ deposits e = totalDeposits res
  /\ interest e = totalInterest res.
Proof.
  intro Hy. cbv zeta.
  assert (Hb : balance (yearlyEntry p (annualInterestRate p / 100) (years p))
               = futureValue (calculation p)).
  { unfold yearlyEntry, calculation. cbn [balance futureValue].
    destruct (Z.gtb_spec (years p) 0) as [_|Hn]; [|lia].
    destruct (gtb (periodicDeposit p) 0), (gtb (annualInterestRate p / 100) 0);
      reflexivity. }
  split; [exact Hb|]. split; [reflexivity|].
  unfold yearlyEntry, calculation in *.
  cbn [balance futureValue interest totalInterest] in *.
  rewrite Hb. reflexivity.
Qed.

(** C4. For valid inputs the last entry of the per-year series is the entry
    of year [years], and its balance, deposits and interest are the future
    value, the total deposits and the total interest of the result. *)
Theorem series_ends_at_final_totals (st : State) :
  0 <= initialBalance (params st) ->
  0 <= periodicDeposit (params st) ->
  0 <= annualInterestRate (params st) ->
  (1 <= years (params st))%Z ->
  exists res e init,
    result (calculateCompoundInterest st) = Some res
    /\ yearlyData res = init ++ [e]
    /\ year e = years (params st)
    /\ balance e = futureValue res
    /\ deposits e = totalDeposits res
    /\ interest e = totalInterest res.
Proof.
  intros Hb Hd Hr Hy.
  pose proof (newErrors_valid _ Hb Hd Hr Hy) as Hval.
  destruct (yearlyEntry_final (params st) Hy) as (E1 & E2 & E3).
  exists (calculation (params st)).
  exists (yearlyEntry (params st) (annualInterestRate (params st) / 100)
            (years (params st))).
  exists (map (yearlyEntry (params st) (annualInterestRate (params st) / 100))
            (loopYears (years (params st) - 1))).
  split; [apply calculateCompoundInterest_valid, Hval|].
  split.
  - unfold calculation at 1. cbn [yearlyData].
    rewrite loopYears_last by lia. rewrite map_app. reflexivity.
  - split; [reflexivity|]. auto.
Qed.

Lemma series_ends_at_final_totals_witness :
  exists res e init,
    result (calculateCompoundInterest
              {| params := {| initialBalance := 10000;
                              periodicDeposit := 500;
                              frequency := 12;
                              depositTiming := end_;
                              annualInterestRate := 7;
                              years := 10 |};
                 result := None;
                 errors := [] |})
    = Some res
    /\ yearlyData res = init ++ [e]
    /\ year e = 10%Z
    /\ balance e = futureValue res
    /\ deposits e = totalDeposits res
    /\ interest e = totalInterest res.
Proof.
  apply (series_ends_at_final_totals
           {| params := {| initialBalance := 10000;
                           periodicDeposit := 500;
                           frequency := 12;
                           depositTiming := end_;
                           annualInterestRate := 7;
                           years := 10 |};
              result := None;
              errors := [] |}); cbn [params annualInterestRate initialBalance
                                     periodicDeposit years].
  - unfold Qle; simpl; lia.
  - unfold Qle; simpl; lia.
  - unfold Qle; simpl; lia.
  - lia.
Defined.

End CompoundInterest.

Section ZeroRate.
Import JS CompoundInterestCalculator.

(** At a rate of zero the growth factor of every period is 1. *)
Lemma zero_rate_growth (r : Q) (n e : Z) :
  r == 0 ->
  n <> 0%Z ->
  exists rn p,
    div r (inject_Z n) = Some rn
    /\ Math_pow (1 + rn) e = Some p
    /\ p == 1.
Proof.
  intros Hr Hn.
  assert (Hq : ~ inject_Z n == 0).
  { unfold Qeq. simpl. lia. }
  assert (Hrn : r / inject_Z n == 0).
  { rewrite Hr. unfold Qdiv. ring. }
  exists (r / inject_Z n), ((1 + r / inject_Z n) ^ e).
  split; [apply div_nonzero, Hq|]. split.
  - unfold Math_pow.
    destruct (Qeq_bool (1 + r / inject_Z n) 0) eqn:E; [|reflexivity].
    apply Qeq_bool_iff in E. rewrite Hrn in E. discriminate E.
  - rewrite Hrn. setoid_replace (1 + 0) with 1 by ring. apply Qpower_1.
Qed.

(** C6. With an annual interest rate of 0 (and a frequency that is not 0)
    the zero-rate branch is taken, no division by zero occurs, and the
    future value is the initial balance plus the periodic deposit times the
    frequency times the years. *)
Theorem zero_rate_future_value (st : State) :
  annualInterestRate (params st) == 0 ->
  0 <= initialBalance (params st) ->
  0 <= periodicDeposit (params st) ->
  (1 <= years (params st))%Z ->
  frequency (params st) <> 0%Z ->
  exists res fv,
    result (calculateCompoundInterest st) = Some res
    /\ futureValue res = Some fv
    /\ fv == initialBalance (params st)
             + periodicDeposit (params st)
               * inject_Z (frequency (params st))
               * inject_Z (years (params st)).
Proof.
  intros Hr Hb Hd Hy Hn.
  assert (Hr0 : 0 <= annualInterestRate (params st)) by lra.
  pose proof (newErrors_valid _ Hb Hd Hr0 Hy) as Hval.
  set (p := params st) in *.
  assert (Hr100 : annualInterestRate p / 100 == 0).
  { rewrite Hr. reflexivity. }
  destruct (zero_rate_growth _ (frequency p) (frequency p * years p) Hr100 Hn)
    as (rn & g & Hdiv & Hpow & Hg).
  assert (Hfv : futureValue (calculation p)
                = Some (initialBalance p * g
                        + (if gtb (periodicDeposit p) 0
                           then periodicDeposit p * inject_Z (frequency p)
                                * inject_Z (years p)
                           else 0))).
  { unfold calculation. cbn [futureValue]. rewrite Hdiv. cbn [bind].
    rewrite Hpow. cbn [bind].
    destruct (gtb_spec (annualInterestRate p / 100) 0) as [Hpos|_]; [lra|].
    rewrite andb_false_r.
    destruct (gtb (periodicDeposit p) 0); reflexivity. }
  exists (calculation p). eexists.
  split; [apply calculateCompoundInterest_valid, Hval|].
  split; [exact Hfv|].
  rewrite Hg.
  destruct (gtb_spec (periodicDeposit p) 0) as [Hgt|Hle].
  - ring.
  - assert (Hz : periodicDeposit p == 0) by lra. rewrite Hz. ring.
Qed.

Lemma zero_rate_future_value_witness :
  exists res fv,
    result (calculateCompoundInterest
              {| params := {| initialBalance := 10000;
                              periodicDeposit := 500;
                              frequency := 12;
                              depositTiming := end_;
                              annualInterestRate := 0;
                              years := 10 |};
                 result := None;
                 errors := [] |})
    = Some res
    /\ futureValue res = Some fv
    /\ fv == 10000 + 500 * inject_Z 12 * inject_Z 10.
Proof.
  apply (zero_rate_future_value
           {| params := {| initialBalance := 10000;
                           periodicDeposit := 500;
                           frequency := 12;
                           depositTiming := end_;
                           annualInterestRate := 0;
                           years := 10 |};
              result := None;
              errors := [] |}); cbn [params annualInterestRate initialBalance
                                     periodicDeposit years frequency].
  - reflexivity.
  - unfold Qle; simpl; lia.
  - unfold Qle; simpl; lia.
  - lia.
  - discriminate.
Defined.

End ZeroRate.

(** ** Validation and the component state of the salary form *)

Section SalaryValidation.
Import JS NetSalaryCalculator Terms Variants.

Lemma set_not_nil (obj : list (string * string)) (key v : string) :
  set obj key v <> [].
Proof.
  destruct obj as [|[k w] rest]; cbn [set].
  - discriminate.
  - destruct (String.eqb k key); discriminate.
Qed.

(** A guarded write leaves the record empty only if the guard is false and
    the record was empty. *)
Lemma guarded_set_nil (c : bool) (obj : list (string * string))
    (key v : string) :
  (if c then set obj key v else obj) = [] <-> c = false /\ obj = [].
Proof.
  destruct c; split.
  - intro H. exfalso. exact (set_not_nil _ _ _ H).
  - intros [H _]. discriminate H.
  - intro H. split; [reflexivity | exact H].
  - intros [_ H]. exact H.
Qed.

(** X1. [validateInputs] of the salary form accepts exactly the parameters
    with a gross salary in (0, 1,000,000], children counts that are not
    negative, disability percentages in [0, 100] and a region that is not
    the empty string; the region is not compared with the list of codes. *)
Theorem salary_validation_accepts_iff (p : SalaryParams) :
  newErrors p = []
  <-> (0 < grossSalary p /\ grossSalary p <= 1000000
       /\ (0 <= childrenUnder25 p)%Z /\ (0 <= childrenOver25 p)%Z
       /\ (0 <= workerDisability p <= 100)%Z
       /\ (0 <= familyDisability p <= 100)%Z
       /\ region p <> ""%string).
Proof.
  unfold newErrors. cbv zeta.
  rewrite !guarded_set_nil.
  rewrite !orb_false_iff.
  destruct (leb_spec (grossSalary p) 0);
  destruct (gtb_spec (grossSalary p) 1000000);
  destruct (String.eqb_spec (region p) "");
  rewrite ?Z.ltb_ge, ?Z.gtb_ltb, ?Z.ltb_ge;
  split; intro H; decompose [and] H; clear H;
  try discriminate; try contradiction; try lra;
  repeat split; first [reflexivity | lra | lia | assumption].
Qed.

End SalaryValidation.

Section SalaryState.
Import JS NetSalaryCalculator Terms Variants.

(** Reading a key after a write. *)
Lemma own_property_set (obj : list (string * string)) (key v key' : string) :
  own_property (set obj key v) key'
  = if String.eqb key key' then Some v else own_property obj key'.
Proof.
  induction obj as [|[k w] rest IH]; cbn [set own_property].
  - reflexivity.
  - destruct (String.eqb_spec k key) as [E|N]; cbn [own_property].
    + subst k. destruct (String.eqb key key'); reflexivity.
    + rewrite IH.
      destruct (String.eqb_spec k key') as [E'|N'].
      * subst k. destruct (String.eqb_spec key key') as [E''|_].
        -- subst key. contradiction.
        -- reflexivity.
      * reflexivity.
Qed.

Lemma own_property_guarded_set (c : bool) (obj : list (string * string))
    (key v key' : string) :
  own_property (if c then set obj key v else obj) key'
  = if c && String.eqb key key' then Some v else own_property obj key'.
Proof.
  destruct c; cbn [andb]; [apply own_property_set | reflexivity].
Qed.

(** X2. Every check of [validateInputs] is reported under its own field,
    whatever the other fields hold: a field has no entry in the error
    record exactly when its own value is in range, and no other key is ever
    written. *)
Theorem salary_errors_reported_per_field (p : SalaryParams) :
  (own_property (newErrors p) "grossSalary" = None
   <-> 0 < grossSalary p /\ grossSalary p <= 1000000)
  /\ (own_property (newErrors p) "childrenUnder25" = None
      <-> (0 <= childrenUnder25 p)%Z)
  /\ (own_property (newErrors p) "childrenOver25" = None
      <-> (0 <= childrenOver25 p)%Z)
  /\ (own_property (newErrors p) "workerDisability" = None
      <-> (0 <= workerDisability p <= 100)%Z)
  /\ (own_property (newErrors p) "familyDisability" = None
      <-> (0 <= familyDisability p <= 100)%Z)
  /\ (own_property (newErrors p) "region" = None
      <-> region p <> ""%string)
  /\ (forall key, ~ In key salaryFields ->
      own_property (newErrors p) key = None).
Proof.
  unfold newErrors. cbv zeta.
  repeat match goal with |- _ /\ _ => split end;
    [ | | | | | | intros key Hkey ];
    rewrite !own_property_guarded_set; cbn [own_property].
  1-6: cbn [String.eqb Ascii.eqb Bool.eqb andb];
       rewrite ?andb_false_r, ?andb_true_r.
  - destruct (gtb_spec (grossSalary p) 1000000);
      destruct (leb_spec (grossSalary p) 0);
      split; intro Hx; first [discriminate Hx | reflexivity | lra].
  - destruct (Z.ltb_spec (childrenUnder25 p) 0);
      split; intro Hx; first [discriminate Hx | reflexivity | lia].
  - destruct (Z.ltb_spec (childrenOver25 p) 0);
      split; intro Hx; first [discriminate Hx | reflexivity | lia].
  - destruct (Z.ltb_spec (workerDisability p) 0);
      destruct (Z.gtb_spec (workerDisability p) 100); cbn [orb];
      split; intro Hx; first [discriminate Hx | reflexivity | lia].
  - destruct (Z.ltb_spec (familyDisability p) 0);
      destruct (Z.gtb_spec (familyDisability p) 100); cbn [orb];
      split; intro Hx; first [discriminate Hx | reflexivity | lia].
  - destruct (String.eqb_spec (region p) "");
      split; intro Hx; first [discriminate Hx | reflexivity | contradiction
                            | assumption].
  - repeat match goal with
    | |- context [String.eqb ?k key] =>
        destruct (String.eqb_spec k key) as [E|_];
        [exfalso; apply Hkey; rewrite <- E; cbn; tauto|]
    end.
    rewrite ?andb_false_r. reflexivity.
Qed.

Lemma salary_errors_reported_per_field_witness :
  own_property (newErrors sampleParams) "tax"%string = None.
Proof.
  destruct (salary_errors_reported_per_field sampleParams)
    as (_ & _ & _ & _ & _ & _ & H).
  apply H. cbn. intuition discriminate.
Defined.

(** X3. [calculateSalary] never changes the form parameters and always stores
    the fresh validation errors; when validation fails the previous result
    stays in place, when it passes the new result replaces it; running it
    twice gives the same state as running it once. *)
Theorem calculateSalary_state (st : State) :
  params (calculateSalary st) = params st
  /\ errors (calculateSalary st) = newErrors (params st)
  /\ (newErrors (params st) <> [] ->
      result (calculateSalary st) = result st)
  /\ (newErrors (params st) = [] ->
      result (calculateSalary st) = Some (calculationResult (params st)))
  /\ calculateSalary (calculateSalary st) = calculateSalary st.
Proof.
  unfold calculateSalary, validateInputs.
  destruct (newErrors (params st)) as [|e rest] eqn:E;
    cbn [no_keys negb setErrors setResult params errors result];
    rewrite E; cbn [no_keys negb setErrors setResult params errors result].
  - repeat split; try reflexivity. intro H. contradiction.
  - repeat split; try reflexivity. intro H. discriminate H.
Qed.

Lemma calculateSalary_state_witness :
  result (calculateSalary
            {| params := withGrossSalary sampleParams 0;
               result := None;
               errors := [] |})
  = None.
Proof.
  destruct (calculateSalary_state
              {| params := withGrossSalary sampleParams 0;
                 result := None;
                 errors := [] |}) as (_ & _ & H & _).
  apply H. discriminate.
Defined.

End SalaryState.

(** ** Contributions as functions of the gross salary *)

Section ContributionProfile.
Import JS NetSalaryCalculator Terms Variants.

(** The total solidarity quota, bracket by bracket. *)
Lemma totalSolidarityQuota_cases (g : Q) :
  (g <= 58908 /\ totalSolidarityQuota g == 0)
  \/ (58908 < g /\ g - 58908 <= 5890.8
      /\ totalSolidarityQuota g == (g - 58908) * 0.0092)
  \/ (5890.8 < g - 58908 /\ g - 58908 <= 29454
      /\ totalSolidarityQuota g
         == 5890.8 * 0.0092 + (g - 58908 - 5890.8) * 0.01)
  \/ (29454 < g - 58908
      /\ totalSolidarityQuota g
         == 5890.8 * 0.0092 + 23563.2 * 0.01 + (g - 58908 - 29454) * 0.0117).
Proof.
  destruct (Qlt_le_dec 58908 g) as [H|H].
  - destruct (totalSolidarityQuota_above g H) as (A & B & C).
    destruct (Qlt_le_dec 5890.8 (g - 58908)) as [L|L];
      [destruct (Qlt_le_dec 29454 (g - 58908)) as [M|M]|].
    + right; right; right. split; [exact M|]. rewrite (C M). ring.
    + right; right; left. repeat split; try assumption.
      rewrite (B L M). ring.
    + right; left. repeat split; try assumption. exact (A L).
  - left. split; [exact H|]. unfold totalSolidarityQuota.
    rewrite (calculateSolidarityQuota_below g H). reflexivity.
Qed.

(** Both shares are fixed fractions of the total. *)
Lemma solidarity_shares (g : Q) :
  sq_solidarityQuotaEmployer (calculateSolidarityQuota g)
  == 0.8339 * totalSolidarityQuota g
  /\ sq_solidarityQuotaWorker (calculateSolidarityQuota g)
     == 0.1661 * totalSolidarityQuota g.
Proof.
  unfold totalSolidarityQuota, calculateSolidarityQuota. cbv zeta.
  destruct (leb (g) 58908).
  - cbn [sq_solidarityQuotaEmployer sq_solidarityQuotaWorker].
    split; ring.
  - cbn [sq_solidarityQuotaEmployer sq_solidarityQuotaWorker].
    split; ring.
Qed.

Lemma totalSolidarityQuota_slope (g1 g2 : Q) :
  g1 <= g2 ->
  totalSolidarityQuota g1 <= totalSolidarityQuota g2
  /\ totalSolidarityQuota g2 - totalSolidarityQuota g1 <= 0.0117 * (g2 - g1).
Proof.
  intro H.
  destruct (totalSolidarityQuota_cases g1)
    as [(?&E1)|[(?&?&E1)|[(?&?&E1)|(?&E1)]]];
  destruct (totalSolidarityQuota_cases g2)
    as [(?&E2)|[(?&?&E2)|[(?&?&E2)|(?&E2)]]];
  rewrite E1, E2; split; lra.
Qed.

(** The social-security and MEI part of the worker contributions. *)
Lemma capped_worker_part (g : Q) :
  calculateSocialSecurity g + mei_meiWorker (calculateMEI g)
  == Math_min g 53760 * 0.0648.
Proof.
  unfold calculateSocialSecurity, calculateMEI. cbv zeta.
  cbn [mei_meiWorker]. ring.
Qed.

Lemma totalWorkerContributions_eq (g : Q) :
  totalWorkerContributions g
  == Math_min g 53760 * 0.0648 + 0.1661 * totalSolidarityQuota g.
Proof.
  unfold totalWorkerContributions.
  destruct (solidarity_shares g) as [_ Hw]. rewrite Hw.
  rewrite <- capped_worker_part. ring.
Qed.

Lemma totalWorkerContributions_slope (g1 g2 : Q) :
  g1 <= g2 ->
  totalWorkerContributions g1 <= totalWorkerContributions g2
  /\ totalWorkerContributions g2 - totalWorkerContributions g1
     <= 0.0648 * (g2 - g1).
Proof.
  intro H.
  rewrite (totalWorkerContributions_eq g1), (totalWorkerContributions_eq g2).
  destruct (totalSolidarityQuota_slope g1 g2 H) as [M L].
  destruct (totalSolidarityQuota_cases g1)
    as [(?&E1)|[(?&?&E1)|[(?&?&E1)|(?&E1)]]];
  destruct (totalSolidarityQuota_cases g2)
    as [(?&E2)|[(?&?&E2)|[(?&?&E2)|(?&E2)]]];
  destruct (Q.min_spec g1 53760) as [[? Hm1]|[? Hm1]];
  destruct (Q.min_spec g2 53760) as [[? Hm2]|[? Hm2]];
  unfold Math_min; rewrite Hm1, Hm2; split; lra.
Qed.

Lemma totalWorkerContributions_bounds (g : Q) :
  0 <= g ->
  0 <= totalWorkerContributions g /\ totalWorkerContributions g <= g * 0.0648.
Proof.
  intro H.
  destruct (totalWorkerContributions_slope 0 g H) as [M L].
  assert (Z0 : totalWorkerContributions 0 == 0) by reflexivity.
  split; lra.
Qed.

Lemma totalWorkerContributions_pos (g : Q) :
  0 < g -> 0 < totalWorkerContributions g.
Proof.
  intro H. rewrite totalWorkerContributions_eq.
  destruct (totalSolidarityQuota_slope 0 g) as [M _]; [lra|].
  assert (Z0 : totalSolidarityQuota 0 == 0) by reflexivity.
  destruct (Q.min_spec g 53760) as [[? Hm]|[? Hm]];
    unfold Math_min; rewrite Hm; lra.
Qed.

End ContributionProfile.

Section ContributionProperties.
Import JS NetSalaryCalculator Terms Variants.

(** X4. The employer contribution and both MEI amounts use the same capped
    base as the worker contribution: up to 53,760 they are 30.55%, 0.13%
    and 0.67% of the gross salary, from 53,760 on they are constant; the
    two MEI amounts always add up to 0.8% of the base. *)
Theorem employer_and_mei_follow_capped_base (g : Q) :
  (g <= 53760 ->
   calculateEmployerSocialSecurity g == g * 0.3055
   /\ mei_meiWorker (calculateMEI g) == g * 0.0013
   /\ mei_meiEmployer (calculateMEI g) == g * 0.0067)
  /\ (53760 <= g ->
      calculateEmployerSocialSecurity g == 53760 * 0.3055
      /\ mei_meiWorker (calculateMEI g) == 53760 * 0.0013
      /\ mei_meiEmployer (calculateMEI g) == 53760 * 0.0067)
  /\ mei_meiWorker (calculateMEI g) + mei_meiEmployer (calculateMEI g)
     == Math_min g 53760 * 0.008.
Proof.
  split; [|split].
  - intro H. split; [apply calculateEmployerSocialSecurity_below, H|].
    apply calculateMEI_below, H.
  - intro H.
    unfold calculateEmployerSocialSecurity, calculateMEI. cbv zeta.
    cbn [mei_meiWorker mei_meiEmployer].
    rewrite (Math_min_r g 53760 H). repeat split; ring.
  - unfold calculateMEI. cbv zeta. cbn [mei_meiWorker mei_meiEmployer]. ring.
Qed.

Lemma employer_and_mei_follow_capped_base_witness :
  calculateEmployerSocialSecurity 35000 == 35000 * 0.3055
  /\ mei_meiEmployer (calculateMEI 80000) == 53760 * 0.0067.
Proof.
  destruct (employer_and_mei_follow_capped_base 35000) as ((A & _) & _).
  - unfold Qle; simpl; lia.
  - destruct (employer_and_mei_follow_capped_base 80000)
      as (_ & (_ & _ & B) & _).
    + unfold Qle; simpl; lia.
    + split; [exact A | exact B].
Defined.

(** X5. Above 58,908 the solidarity quota is charged marginally on the excess:
    0.92% on its first 5,890.80, 1% on the next 23,563.20 and 1.17% on the
    rest. *)
Theorem solidarity_quota_is_marginal (g : Q) :
  58908 < g ->
  (g - 58908 <= 5890.8 ->
   totalSolidarityQuota g == (g - 58908) * 0.0092)
  /\ (5890.8 < g - 58908 -> g - 58908 <= 29454 ->
      totalSolidarityQuota g
      == 5890.8 * 0.0092 + (g - 58908 - 5890.8) * 0.01)
  /\ (29454 < g - 58908 ->
      totalSolidarityQuota g
      == 5890.8 * 0.0092 + 23563.2 * 0.01
         + (g - 58908 - 29454) * 0.0117).
Proof.
  intro H. destruct (totalSolidarityQuota_above g H) as (A & B & C).
  split; [exact A|]. split.
  - intros L M. rewrite (B L M). ring.
  - intro M. rewrite (C M). ring.
Qed.

Lemma solidarity_quota_is_marginal_witness :
  totalSolidarityQuota 100000
  == 5890.8 * 0.0092 + 23563.2 * 0.01 + (100000 - 58908 - 29454) * 0.0117.
Proof.
  destruct (solidarity_quota_is_marginal 100000) as (_ & _ & C).
  - unfold Qlt; simpl; lia.
  - apply C. unfold Qlt; simpl; lia.
Defined.

(** X6. For every gross salary the employer bears 83.39% and the worker 16.61%
    of the total solidarity quota, and the total lies between 0.92% and
    1.17% of the excess over 58,908. *)
Theorem solidarity_quota_shares_and_bounds (g : Q) :
  sq_solidarityQuotaEmployer (calculateSolidarityQuota g)
  == 0.8339 * totalSolidarityQuota g
  /\ sq_solidarityQuotaWorker (calculateSolidarityQuota g)
     == 0.1661 * totalSolidarityQuota g
  /\ 0.0092 * Math_max 0 (g - 58908) <= totalSolidarityQuota g
  /\ totalSolidarityQuota g <= 0.0117 * Math_max 0 (g - 58908).
Proof.
  destruct (solidarity_shares g) as [He Hw].
  split; [exact He|]. split; [exact Hw|].
  unfold Math_max.
  destruct (Q.max_spec 0 (g - 58908)) as [[? Hm]|[? Hm]]; rewrite Hm;
  destruct (totalSolidarityQuota_cases g)
    as [(?&E)|[(?&?&E)|[(?&?&E)|(?&E)]]];
  rewrite E; split; lra.
Qed.

(** X7. The worker-side contributions (social security, MEI and solidarity
    quota together) are 6.48% of the gross salary up to 53,760, do not
    change between 53,760 and 58,908, never decrease when the gross salary
    rises, and rise by at most 6.48% of the increase. *)
Theorem worker_contributions_profile (g1 g2 : Q) :
  (g1 <= 53760 -> totalWorkerContributions g1 == g1 * 0.0648)
  /\ (53760 <= g1 -> g1 <= 58908 ->
      totalWorkerContributions g1 == 53760 * 0.0648)
  /\ (g1 <= g2 ->
      totalWorkerContributions g1 <= totalWorkerContributions g2
      /\ totalWorkerContributions g2 - totalWorkerContributions g1
         <= 0.0648 * (g2 - g1)).
Proof.
  split; [|split].
  - intro H. rewrite totalWorkerContributions_eq.
    rewrite (Math_min_l g1 53760 H).
    destruct (totalSolidarityQuota_cases g1)
      as [(?&E)|[(?&?&E)|[(?&?&E)|(?&E)]]]; rewrite E; lra.
  - intros H1 H2. rewrite totalWorkerContributions_eq.
    rewrite (Math_min_r g1 53760 H1).
    destruct (totalSolidarityQuota_cases g1)
      as [(?&E)|[(?&?&E)|[(?&?&E)|(?&E)]]]; rewrite E; lra.
  - apply totalWorkerContributions_slope.
Qed.

Lemma worker_contributions_profile_witness :
  totalWorkerContributions 55000 == 53760 * 0.0648
  /\ totalWorkerContributions 30000 <= totalWorkerContributions 70000.
Proof.
  destruct (worker_contributions_profile 55000 55000) as (_ & B & _).
  destruct (worker_contributions_profile 30000 70000) as (_ & _ & C).
  split.
  - apply B; unfold Qle; simpl; lia.
  - apply C. unfold Qle; simpl; lia.
Defined.

End ContributionProperties.

(** ** The bracket tax and the personal minimum *)

Section BracketTax.
Import JS NetSalaryCalculator Terms Variants.

Ltac prune := try (exfalso; lra).

Ltac resolve_brackets :=
  repeat match goal with
  | |- context [JS.gtb ?x ?y] => destruct (gtb_spec x y); prune
  end;
  repeat match goal with
  | |- context [JS.Math_min ?x ?y] =>
      let Hm := fresh "Hm" in
      destruct (Q.min_spec x y) as [[? Hm]|[? Hm]]; prune;
      unfold JS.Math_min at 1; rewrite Hm
  end.

(** The tax of the six brackets, range by range. *)
Lemma bracketTax_cases (b : Q) :
  let T := bracketTax IRPF_BRACKETS b 0 in
  (b <= 0 /\ T == 0)
  \/ (0 < b /\ b <= 12450 /\ T == 0.19 * b)
  \/ (12450 < b /\ b <= 20200 /\ T == 2365.5 + 0.24 * (b - 12450))
  \/ (20200 < b /\ b <= 35200 /\ T == 4225.5 + 0.30 * (b - 20200))
  \/ (35200 < b /\ b <= 60000 /\ T == 8725.5 + 0.37 * (b - 35200))
  \/ (60000 < b /\ T == 17901.5 + 0.47 * (b - 60000)).
Proof.
  cbv zeta.
  unfold IRPF_BRACKETS. cbn [bracketTax min max rate min_bound].
  destruct (Qlt_le_dec 0 b) as [H0|H0];
  [destruct (Qlt_le_dec 12450 b) as [H1|H1];
   [destruct (Qlt_le_dec 20200 b) as [H2|H2];
    [destruct (Qlt_le_dec 35200 b) as [H3|H3];
     [destruct (Qlt_le_dec 60000 b) as [H4|H4]|]|]|]|].
  - do 5 right. split; [assumption|]. resolve_brackets; lra.
  - do 4 right; left. repeat (split; [assumption|]). resolve_brackets; lra.
  - do 3 right; left. repeat (split; [assumption|]). resolve_brackets; lra.
  - do 2 right; left. repeat (split; [assumption|]). resolve_brackets; lra.
  - right; left. repeat (split; [assumption|]). resolve_brackets; lra.
  - left. split; [assumption|]. resolve_brackets; lra.
Qed.

(** The tax never decreases with the base and rises by at most 47% of the
    increase. *)
Lemma bracketTax_slope (b1 b2 : Q) :
  b1 <= b2 ->
  bracketTax IRPF_BRACKETS b1 0 <= bracketTax IRPF_BRACKETS b2 0
  /\ bracketTax IRPF_BRACKETS b2 0 - bracketTax IRPF_BRACKETS b1 0
     <= 0.47 * (b2 - b1).
Proof.
  intro H.
  destruct (bracketTax_cases b1)
    as [(?&E1)|[(?&?&E1)|[(?&?&E1)|[(?&?&E1)|[(?&?&E1)|(?&E1)]]]]];
  destruct (bracketTax_cases b2)
    as [(?&E2)|[(?&?&E2)|[(?&?&E2)|[(?&?&E2)|[(?&?&E2)|(?&E2)]]]]];
  cbv zeta in E1, E2; rewrite E1, E2; split; lra.
Qed.

End BracketTax.

Section PersonalMinimumParts.
Import JS NetSalaryCalculator Terms Variants.

Lemma guarded_add (c : bool) (x k : Q) :
  (if c then x + k else x) == x + (if c then k else 0).
Proof. destruct c; ring. Qed.

(** The personal minimum as the sum of its parts. *)
Lemma personalMinimum_parts (p : SalaryParams) :
  let n := (childrenUnder25 p + childrenOver25 p)%Z in
  personalMinimum p
  == 5550
     + match maritalStatus p with married_no_income => 3400 | _ => 0 end
     + ((if (n >=? 1)%Z then 2400 else 0)
        + (if (n >=? 2)%Z then 2700 else 0)
        + (if (n >=? 3)%Z then 4000 else 0)
        + (if (n >=? 4)%Z then inject_Z ((n - 3) * 4500) else 0))
     + (if (workerDisability p >=? 33)%Z
        then if (workerDisability p >=? 65)%Z then 9000 else 3000
        else 0)
     + (if (familyDisability p >=? 33)%Z
        then if (familyDisability p >=? 65)%Z then 9000 else 3000
        else 0).
Proof.
  intro n. unfold personalMinimum. fold n. cbv zeta.
  rewrite !guarded_add.
  destruct (maritalStatus p); ring.
Qed.

End PersonalMinimumParts.

Section WithholdingHelpers.
Import JS NetSalaryCalculator Terms Variants.

(** The children part of the personal minimum grows with the child count. *)
Lemma children_part_mono (n1 n2 : Z) :
  (n1 <= n2)%Z ->
  (if (n1 >=? 1)%Z then 2400 else 0)
  + (if (n1 >=? 2)%Z then 2700 else 0)
  + (if (n1 >=? 3)%Z then 4000 else 0)
  + (if (n1 >=? 4)%Z then inject_Z ((n1 - 3) * 4500) else 0)
  <= (if (n2 >=? 1)%Z then 2400 else 0)
     + (if (n2 >=? 2)%Z then 2700 else 0)
     + (if (n2 >=? 3)%Z then 4000 else 0)
     + (if (n2 >=? 4)%Z then inject_Z ((n2 - 3) * 4500) else 0).
Proof.
  intro H.
  assert (A1 : (4 <= n1)%Z -> 0 <= inject_Z ((n1 - 3) * 4500)).
  { intro. change 0 with (inject_Z 0). rewrite <- Zle_Qle. lia. }
  assert (A2 : (4 <= n2)%Z -> 0 <= inject_Z ((n2 - 3) * 4500)).
  { intro. change 0 with (inject_Z 0). rewrite <- Zle_Qle. lia. }
  assert (A3 : inject_Z ((n1 - 3) * 4500) <= inject_Z ((n2 - 3) * 4500)).
  { rewrite <- Zle_Qle. lia. }
  destruct (Z.geb_spec n1 1); destruct (Z.geb_spec n1 2);
  destruct (Z.geb_spec n1 3); destruct (Z.geb_spec n1 4); try lia;
  destruct (Z.geb_spec n2 1); destruct (Z.geb_spec n2 2);
  destruct (Z.geb_spec n2 3); destruct (Z.geb_spec n2 4); try lia;
  try specialize (A1 ltac:(lia)); try specialize (A2 ltac:(lia)); lra.
Qed.

Lemma personalMinimum_ge (p : SalaryParams) : 5550 <= personalMinimum p.
Proof.
  rewrite personalMinimum_parts. cbv zeta.
  pose proof (children_part_mono 0 (childrenUnder25 p + childrenOver25 p))
    as Hc.
  set (n := (childrenUnder25 p + childrenOver25 p)%Z) in *.
  assert (Hc' : 0 <= (if (n >=? 1)%Z then 2400 else 0)
                     + (if (n >=? 2)%Z then 2700 else 0)
                     + (if (n >=? 3)%Z then 4000 else 0)
                     + (if (n >=? 4)%Z then inject_Z ((n - 3) * 4500) else 0)).
  { destruct (Z.leb_spec 0 n) as [Hn|Hn].
    - specialize (Hc Hn). cbn in Hc. lra.
    - destruct (Z.geb_spec n 1); [lia|]. destruct (Z.geb_spec n 2); [lia|].
      destruct (Z.geb_spec n 3); [lia|]. destruct (Z.geb_spec n 4); [lia|].
      lra. }
  destruct (maritalStatus p);
  destruct (workerDisability p >=? 33)%Z;
  destruct (workerDisability p >=? 65)%Z;
  destruct (familyDisability p >=? 33)%Z;
  destruct (familyDisability p >=? 65)%Z; lra.
Qed.

Lemma taxableBase_antitone (g s : Q) (p1 p2 : SalaryParams) :
  personalMinimum p1 <= personalMinimum p2 ->
  taxableBase g s p2 <= taxableBase g s p1.
Proof.
  intro H. unfold taxableBase, Math_max. cbv zeta.
  apply Q.max_le_compat_l. lra.
Qed.

(** The multipliers of the nineteen codes lie between 0.88 and 1.05. *)
Lemma getRegionMultiplier_range :
  Forall (fun code =>
            exists m,
              getRegionMultiplier code = JNumber m /\ 0.88 <= m /\ m <= 1.05)
         regionCodes.
Proof.
  repeat constructor; eexists; (split; [reflexivity|]);
    split; unfold Qle; simpl; lia.
Qed.

Lemma calculateIRPF_range (g s : Q) (p : SalaryParams) :
  In (region p) regionCodes ->
  exists m,
    getRegionMultiplier (region p) = JNumber m
    /\ 0.88 <= m /\ m <= 1.05
    /\ calculateIRPF g s p
       = Some (bracketTax IRPF_BRACKETS (taxableBase g s p) 0 * m).
Proof.
  intro Hin. pose proof getRegionMultiplier_range as H.
  rewrite Forall_forall in H. destruct (H _ Hin) as (m & Hm & Hlo & Hhi).
  exists m. repeat split; try assumption.
  unfold calculateIRPF. rewrite Hm. reflexivity.
Qed.

(** The record of [calculateSalary], with the withholding spelled out. *)
Lemma calculationResult_net (p : SalaryParams) :
  In (region p) regionCodes ->
  exists m,
    getRegionMultiplier (region p) = JNumber m
    /\ 0.88 <= m /\ m <= 1.05
    /\ irpfRetention (calculationResult p)
       = Some (bracketTax IRPF_BRACKETS
                 (taxableBase (grossSalary p)
                    (totalWorkerContributions (grossSalary p)) p) 0 * m)
    /\ netAnnual (calculationResult p)
       = Some (grossSalary p - totalWorkerContributions (grossSalary p)
               - bracketTax IRPF_BRACKETS
                   (taxableBase (grossSalary p)
                      (totalWorkerContributions (grossSalary p)) p) 0 * m).
Proof.
  intro Hin.
  destruct (calculateIRPF_range (grossSalary p)
              (totalWorkerContributions (grossSalary p)) p Hin)
    as (m & Hm & Hlo & Hhi & Hirpf).
  exists m. split; [exact Hm|]. split; [exact Hlo|]. split; [exact Hhi|].
  unfold calculationResult. cbn [irpfRetention netAnnual].
  unfold totalWorkerContributions in *. rewrite Hirpf. cbn [bind].
  split; reflexivity.
Qed.

End WithholdingHelpers.

Section WithholdingProperties.
Import JS NetSalaryCalculator Terms Variants.

(** X8. The loop over [IRPF_BRACKETS] taxes the base marginally: 19% up to
    12,450, 24% up to 20,200, 30% up to 35,200, 37% up to 60,000 and 47%
    above, each rate on the part of the base inside its bracket; the tax of
    a base that is not positive is 0. *)
Theorem bracket_tax_is_marginal (b : Q) :
  (b <= 0 -> bracketTax IRPF_BRACKETS b 0 == 0)
  /\ (0 < b -> b <= 12450 -> bracketTax IRPF_BRACKETS b 0 == 0.19 * b)
  /\ (12450 < b -> b <= 20200 ->
      bracketTax IRPF_BRACKETS b 0
      == 0.19 * 12450 + 0.24 * (b - 12450))
  /\ (20200 < b -> b <= 35200 ->
      bracketTax IRPF_BRACKETS b 0
      == 0.19 * 12450 + 0.24 * 7750 + 0.30 * (b - 20200))
  /\ (35200 < b -> b <= 60000 ->
      bracketTax IRPF_BRACKETS b 0
      == 0.19 * 12450 + 0.24 * 7750 + 0.30 * 15000 + 0.37 * (b - 35200))
  /\ (60000 < b ->
      bracketTax IRPF_BRACKETS b 0
      == 0.19 * 12450 + 0.24 * 7750 + 0.30 * 15000 + 0.37 * 24800
         + 0.47 * (b - 60000)).
Proof.
  destruct (bracketTax_cases b)
    as [(?&E)|[(?&?&E)|[(?&?&E)|[(?&?&E)|[(?&?&E)|(?&E)]]]]];
  cbv zeta in E; rewrite E; repeat split; intros; lra.
Qed.

Lemma bracket_tax_is_marginal_witness :
  bracketTax IRPF_BRACKETS 27182 0
  == 0.19 * 12450 + 0.24 * 7750 + 0.30 * (27182 - 20200).
Proof.
  destruct (bracket_tax_is_marginal 27182) as (_ & _ & _ & H & _).
  apply H; [unfold Qlt | unfold Qle]; simpl; lia.
Defined.

(** X9. The bracket tax never decreases when the taxable base rises, rises by
    at most 47% of the increase, and never exceeds 47% of the base. *)
Theorem bracket_tax_monotone_and_bounded (b1 b2 : Q) :
  b1 <= b2 ->
  bracketTax IRPF_BRACKETS b1 0 <= bracketTax IRPF_BRACKETS b2 0
  /\ bracketTax IRPF_BRACKETS b2 0 - bracketTax IRPF_BRACKETS b1 0
     <= 0.47 * (b2 - b1)
  /\ (0 <= b2 -> bracketTax IRPF_BRACKETS b2 0 <= 0.47 * b2).
Proof.
  intro H. destruct (bracketTax_slope b1 b2 H) as [M L].
  split; [exact M|]. split; [exact L|].
  intro H2. destruct (bracketTax_slope 0 b2 H2) as [_ L0].
  assert (Z0 : bracketTax IRPF_BRACKETS 0 0 == 0) by reflexivity.
  lra.
Qed.

Lemma bracket_tax_monotone_and_bounded_witness :
  bracketTax IRPF_BRACKETS 10000 0 <= bracketTax IRPF_BRACKETS 70000 0.
Proof.
  destruct (bracket_tax_monotone_and_bounded 10000 70000) as [H _].
  - unfold Qle; simpl; lia.
  - exact H.
Defined.

(** X10. The disability allowance is one tier per person -- nothing below 33%,
    3,000 from 33%, 9,000 (not 3,000 + 9,000) from 65% -- and the tiers of
    the worker and of the family member add up. *)
Theorem disability_allowance_tiers (p : SalaryParams) :
  disabilityAllowance p
  == (if (workerDisability p <? 33)%Z then 0
      else if (workerDisability p <? 65)%Z then 3000 else 9000)
     + (if (familyDisability p <? 33)%Z then 0
        else if (familyDisability p <? 65)%Z then 3000 else 9000).
Proof.
  unfold disabilityAllowance.
  rewrite (personalMinimum_parts p),
          (personalMinimum_parts (withDisability p 0 0)).
  cbv zeta.
  cbn [withDisability maritalStatus childrenUnder25 childrenOver25
       workerDisability familyDisability].
  change (0 >=? 33)%Z with false. cbv iota.
  destruct (Z.geb_spec (workerDisability p) 33);
  destruct (Z.geb_spec (workerDisability p) 65);
  destruct (Z.ltb_spec (workerDisability p) 33);
  destruct (Z.ltb_spec (workerDisability p) 65); try lia;
  destruct (Z.geb_spec (familyDisability p) 33);
  destruct (Z.geb_spec (familyDisability p) 65);
  destruct (Z.ltb_spec (familyDisability p) 33);
  destruct (Z.ltb_spec (familyDisability p) 65); try lia; ring.
Qed.

(** X11. Only [married_no_income] changes the tax: it raises the personal
    minimum by 3,400, while [married_with_income] gives the same
    withholding and the same result as [single]. *)
Theorem marital_status_effect
    (grossSalary socialSecurity : Q) (p : SalaryParams) :
  calculateIRPF grossSalary socialSecurity
    (withMaritalStatus p married_with_income)
  = calculateIRPF grossSalary socialSecurity (withMaritalStatus p single)
  /\ calculationResult (withMaritalStatus p married_with_income)
     = calculationResult (withMaritalStatus p single)
  /\ personalMinimum (withMaritalStatus p married_no_income)
     == personalMinimum (withMaritalStatus p single) + 3400.
Proof.
  split; [reflexivity|]. split; [reflexivity|].
  rewrite !personalMinimum_parts. cbv zeta.
  cbn [withMaritalStatus maritalStatus childrenUnder25 childrenOver25
       workerDisability familyDisability].
  ring.
Qed.

(** X12. For each of the nineteen region codes the withholding is the Madrid
    withholding times the multiplier of the region, a factor between 0.88
    and 1.05. *)
Theorem region_scales_madrid_withholding
    (code : string) (grossSalary socialSecurity : Q) (p : SalaryParams) :
  In code regionCodes ->
  exists m madrid irpf,
    getRegionMultiplier code = JNumber m
    /\ 0.88 <= m /\ m <= 1.05
    /\ calculateIRPF grossSalary socialSecurity (withRegion p "MD")
       = Some madrid
    /\ calculateIRPF grossSalary socialSecurity (withRegion p code)
       = Some irpf
    /\ irpf == m * madrid.
Proof.
  intro Hin.
  destruct (calculateIRPF_range grossSalary socialSecurity
              (withRegion p code) Hin) as (m & Hm & Hlo & Hhi & Hirpf).
  cbn [withRegion region] in Hm.
  exists m. eexists. eexists.
  split; [exact Hm|]. split; [exact Hlo|]. split; [exact Hhi|].
  split; [reflexivity|]. split; [exact Hirpf|].
  unfold getRegionMultiplier, get, or. cbn [own_property String.eqb
    Ascii.eqb Bool.eqb truthy Qeq_bool ToNumber bind].
  change (taxableBase grossSalary socialSecurity (withRegion p "MD"))
    with (taxableBase grossSalary socialSecurity (withRegion p code)).
  set (T := bracketTax IRPF_BRACKETS
              (taxableBase grossSalary socialSecurity (withRegion p code)) 0).
  ring.
Qed.

Lemma region_scales_madrid_withholding_witness :
  exists m madrid irpf,
    getRegionMultiplier "CT" = JNumber m
    /\ 0.88 <= m /\ m <= 1.05
    /\ calculateIRPF 35000 2268 (withRegion sampleParams "MD") = Some madrid
    /\ calculateIRPF 35000 2268 (withRegion sampleParams "CT") = Some irpf
    /\ irpf == m * madrid.
Proof.
  apply (region_scales_madrid_withholding "CT" 35000 2268 sampleParams).
  cbn. tauto.
Defined.

(** X13. With the other fields unchanged, a larger total number of children
    never gives a higher withholding. *)
Theorem more_children_never_raise_withholding
    (grossSalary socialSecurity : Q) (p : SalaryParams) (u1 o1 u2 o2 : Z) :
  In (region p) regionCodes ->
  (u1 + o1 <= u2 + o2)%Z ->
  exists i1 i2,
    calculateIRPF grossSalary socialSecurity (withChildren p u1 o1) = Some i1
    /\ calculateIRPF grossSalary socialSecurity (withChildren p u2 o2)
       = Some i2
    /\ i2 <= i1.
Proof.
  intros Hin Hle.
  destruct (calculateIRPF_range grossSalary socialSecurity
              (withChildren p u1 o1) Hin) as (m1 & Hm1 & Hlo & _ & H1).
  destruct (calculateIRPF_range grossSalary socialSecurity
              (withChildren p u2 o2) Hin) as (m2 & Hm2 & _ & _ & H2).
  cbn [withChildren region] in Hm1, Hm2.
  assert (Em : m2 = m1) by congruence. subst m2.
  eexists. eexists. split; [exact H1|]. split; [exact H2|].
  apply Qmult_le_compat_r; [|lra].
  assert (Hpm : personalMinimum (withChildren p u1 o1)
                <= personalMinimum (withChildren p u2 o2)).
  { rewrite !personalMinimum_parts. cbv zeta.
    cbn [withChildren maritalStatus childrenUnder25 childrenOver25
         workerDisability familyDisability].
    pose proof (children_part_mono _ _ Hle). lra. }
  pose proof (taxableBase_antitone grossSalary socialSecurity _ _ Hpm) as Hb.
  destruct (bracketTax_slope _ _ Hb) as [Hmono _]. exact Hmono.
Qed.

Lemma more_children_never_raise_withholding_witness :
  exists i1 i2,
    calculateIRPF 35000 2268 (withChildren sampleParams 0 0) = Some i1
    /\ calculateIRPF 35000 2268 (withChildren sampleParams 2 1) = Some i2
    /\ i2 <= i1.
Proof.
  apply (more_children_never_raise_withholding 35000 2268 sampleParams
           0 0 2 1).
  - cbn. tauto.
  - lia.
Defined.

End WithholdingProperties.

(** ** The salary result *)

Section SalaryResultProperties.
Import JS NetSalaryCalculator Terms Variants Display.

(** X14. For a positive gross salary and a region of the form, the withholding
    is not negative and the net annual salary is positive and below the
    gross salary. *)
Theorem net_salary_positive_below_gross (p : SalaryParams) :
  0 < grossSalary p ->
  In (region p) regionCodes ->
  exists net irpf,
    netAnnual (calculationResult p) = Some net
    /\ irpfRetention (calculationResult p) = Some irpf
    /\ 0 <= irpf
    /\ 0 < net
    /\ net < grossSalary p.
Proof.
  intros Hg Hin.
  destruct (calculationResult_net p Hin)
    as (m & _ & Hlo & Hhi & Hirpf & Hnet).
  eexists. eexists. split; [exact Hnet|]. split; [exact Hirpf|].
  set (g := grossSalary p) in *.
  set (c := totalWorkerContributions g) in *.
  set (b := taxableBase g c p) in *.
  set (T := bracketTax IRPF_BRACKETS b 0) in *.
  assert (Hg0 : 0 <= g) by lra.
  destruct (totalWorkerContributions_bounds g Hg0) as [Hc0 Hc1]. fold c in Hc0, Hc1.
  pose proof (totalWorkerContributions_pos g Hg) as Hcpos. fold c in Hcpos.
  pose proof (personalMinimum_ge p) as Hpm.
  assert (Hb0 : 0 <= b) by (apply Math_max_nonneg).
  assert (Hb1 : b <= g - c).
  { unfold b, taxableBase, Math_max. cbv zeta. apply Q.max_lub; lra. }
  destruct (bracketTax_slope 0 b Hb0) as [HT0 HT1].
  assert (Z0 : bracketTax IRPF_BRACKETS 0 0 == 0) by reflexivity.
  fold T in HT0, HT1.
  assert (HT : 0 <= T) by lra.
  pose proof (Qmult_le_0_compat T (1.05 - m) HT ltac:(lra)) as N1.
  pose proof (Qmult_le_0_compat T m HT ltac:(lra)) as N2.
  repeat split; lra.
Qed.

Lemma net_salary_positive_below_gross_witness :
  exists net irpf,
    netAnnual (calculationResult sampleParams) = Some net
    /\ irpfRetention (calculationResult sampleParams) = Some irpf
    /\ 0 <= irpf
    /\ 0 < net
    /\ net < 35000.
Proof.
  apply (net_salary_positive_below_gross sampleParams).
  - reflexivity.
  - cbn. tauto.
Defined.

(** X15. With the other fields unchanged, a higher gross salary always gives a
    higher net annual salary: of every additional euro at least 47 cents
    are kept. *)
Theorem net_salary_increases_with_gross (p : SalaryParams) (g1 g2 : Q) :
  In (region p) regionCodes ->
  g1 < g2 ->
  exists n1 n2,
    netAnnual (calculationResult (withGrossSalary p g1)) = Some n1
    /\ netAnnual (calculationResult (withGrossSalary p g2)) = Some n2
    /\ n1 < n2
    /\ 0.47 * (g2 - g1) <= n2 - n1.
Proof.
  intros Hin Hlt.
  destruct (calculationResult_net (withGrossSalary p g1) Hin)
    as (m & Hm1 & Hlo & Hhi & _ & Hn1).
  destruct (calculationResult_net (withGrossSalary p g2) Hin)
    as (m2 & Hm2 & _ & _ & _ & Hn2).
  cbn [withGrossSalary grossSalary region] in Hm1, Hm2, Hn1, Hn2.
  assert (Em : m2 = m) by congruence. subst m2.
  eexists. eexists. split; [exact Hn1|]. split; [exact Hn2|].
  set (c1 := totalWorkerContributions g1) in *.
  set (c2 := totalWorkerContributions g2) in *.
  assert (Hle : g1 <= g2) by lra.
  destruct (totalWorkerContributions_slope g1 g2 Hle) as [Hc0 Hc1].
  fold c1 c2 in Hc0, Hc1.
  set (b1 := taxableBase g1 c1 (withGrossSalary p g1)) in *.
  set (b2 := taxableBase g2 c2 (withGrossSalary p g2)) in *.
  assert (Hb : b1 <= b2 /\ b2 - b1 <= (g2 - c2) - (g1 - c1)).
  { unfold b1, b2, taxableBase, Math_max. cbv zeta.
    change (personalMinimum (withGrossSalary p g2))
      with (personalMinimum (withGrossSalary p g1)).
    set (pm := personalMinimum (withGrossSalary p g1)).
    destruct (Q.max_spec 0 (g1 - c1 - pm)) as [[? E1]|[? E1]];
    destruct (Q.max_spec 0 (g2 - c2 - pm)) as [[? E2]|[? E2]];
    rewrite E1, E2; split; lra. }
  destruct Hb as [Hb0 Hb1].
  destruct (bracketTax_slope b1 b2 Hb0) as [HT0 HT1].
  set (T1 := bracketTax IRPF_BRACKETS b1 0) in *.
  set (T2 := bracketTax IRPF_BRACKETS b2 0) in *.
  pose proof (Qmult_le_0_compat (T2 - T1) (1.05 - m) ltac:(lra) ltac:(lra))
    as N1.
  split; lra.
Qed.

Lemma net_salary_increases_with_gross_witness :
  exists n1 n2,
    netAnnual (calculationResult (withGrossSalary sampleParams 58000))
    = Some n1
    /\ netAnnual (calculationResult (withGrossSalary sampleParams 62000))
       = Some n2
    /\ n1 < n2
    /\ 0.47 * (62000 - 58000) <= n2 - n1.
Proof.
  apply (net_salary_increases_with_gross sampleParams 58000 62000).
  - cbn. tauto.
  - reflexivity.
Defined.

(** X16. The periodic amounts are the annual ones divided by a positive number
    of periods (12, 26, 52 or 365), so they are always numbers, and
    multiplied by the periods per year they give back the annual amounts. *)
Theorem periodic_amounts_recompose (p : SalaryParams) :
  let r := calculationResult p in
  In (periodsPerYear r) [12; 26; 52; 365]
  /\ (exists gp,
        grossPeriodic r = Some gp
        /\ gp * periodsPerYear r == grossAnnual r)
  /\ (In (region p) regionCodes ->
      exists net np,
        netAnnual r = Some net
        /\ netPeriodic r = Some np
        /\ np * periodsPerYear r == net).
Proof.
  cbv zeta. split; [|split].
  - unfold calculationResult. cbn [periodsPerYear].
    destruct (payFrequency p); cbn; tauto.
  - unfold calculationResult. cbn [periodsPerYear grossPeriodic grossAnnual].
    destruct (payFrequency p); cbn [getPeriodsPerYear];
      (eexists; split; [reflexivity | field]).
  - intro Hin.
    destruct (calculationResult_net p Hin) as (m & _ & _ & _ & _ & Hnet).
    unfold calculationResult in *.
    cbn [periodsPerYear netPeriodic netAnnual] in *.
    rewrite Hnet. cbn [bind].
    destruct (payFrequency p); cbn [getPeriodsPerYear];
      (eexists; eexists; split; [reflexivity|]; split; [reflexivity | field]).
Qed.

Lemma periodic_amounts_recompose_witness :
  exists net np,
    netAnnual (calculationResult sampleParams) = Some net
    /\ netPeriodic (calculationResult sampleParams) = Some np
    /\ np * periodsPerYear (calculationResult sampleParams) == net.
Proof.
  destruct (periodic_amounts_recompose sampleParams) as (_ & _ & H).
  apply H. cbn. tauto.
Defined.

End SalaryResultProperties.

Section DisplayProperties.
Import JS NetSalaryCalculator Terms Variants Display.

(** Both MEI amounts of a positive gross salary are positive. *)
Lemma optional_rows_mei (p : SalaryParams) :
  0 < grossSalary p ->
  0 < meiWorker (calculationResult p) /\ 0 < meiEmployer (calculationResult p).
Proof.
  intro Hg. unfold calculationResult. cbn [meiWorker meiEmployer].
  unfold calculateMEI. cbv zeta. cbn [mei_meiWorker mei_meiEmployer].
  unfold Math_min.
  destruct (Q.min_spec (grossSalary p) 53760) as [[? E]|[? E]]; rewrite E;
    split; lra.
Qed.

(** X17. For a positive gross salary the result card always shows the two MEI
    rows, and it shows the two solidarity-quota rows exactly when the gross
    salary exceeds 58,908. *)
Theorem optional_rows_shown (p : SalaryParams) :
  0 < grossSalary p ->
  showMeiWorker (calculationResult p) = true
  /\ showMeiEmployer (calculationResult p) = true
  /\ (showSolidarityQuotaWorker (calculationResult p) = true
      <-> 58908 < grossSalary p)
  /\ (showSolidarityQuotaEmployer (calculationResult p) = true
      <-> 58908 < grossSalary p).
Proof.
  intro Hg.
  unfold showMeiWorker, showMeiEmployer, showSolidarityQuotaWorker,
    showSolidarityQuotaEmployer, calculationResult.
  cbn [meiWorker meiEmployer solidarityQuotaWorker solidarityQuotaEmployer].
  set (g := grossSalary p) in *.
  destruct (solidarity_shares g) as [He Hw].
  assert (Hmin : 0 < Math_min g 53760).
  { unfold Math_min.
    destruct (Q.min_spec g 53760) as [[? E]|[? E]]; rewrite E; lra. }
  assert (Hq : 0 < totalSolidarityQuota g <-> 58908 < g).
  { destruct (totalSolidarityQuota_cases g)
      as [(?&E)|[(?&?&E)|[(?&?&E)|(?&E)]]]; rewrite E; split; intro; lra. }
  unfold calculateMEI. cbv zeta. cbn [mei_meiWorker mei_meiEmployer].
  repeat split.
  - destruct (gtb_spec (Math_min g 53760 * 0.0013) 0); [reflexivity|lra].
  - destruct (gtb_spec (Math_min g 53760 * 0.0067) 0); [reflexivity|lra].
  - destruct (gtb_spec (sq_solidarityQuotaWorker (calculateSolidarityQuota g))
                0); intro Hx; [|discriminate Hx]. apply Hq. lra.
  - intro Hx. apply Hq in Hx.
    destruct (gtb_spec (sq_solidarityQuotaWorker (calculateSolidarityQuota g))
                0); [reflexivity|lra].
  - destruct (gtb_spec
                (sq_solidarityQuotaEmployer (calculateSolidarityQuota g)) 0);
      intro Hx; [|discriminate Hx]. apply Hq. lra.
  - intro Hx. apply Hq in Hx.
    destruct (gtb_spec
                (sq_solidarityQuotaEmployer (calculateSolidarityQuota g)) 0);
      [reflexivity|lra].
Qed.

Lemma optional_rows_shown_witness :
  showMeiWorker (calculationResult sampleParams) = true
  /\ showSolidarityQuotaWorker (calculationResult sampleParams) <> true.
Proof.
  destruct (optional_rows_shown sampleParams) as (A & _ & B & _).
  - reflexivity.
  - split; [exact A|]. intro H. apply B in H. discriminate H.
Defined.

(** X18. The "Total coste" line is the gross salary plus 31.22% of the capped
    base (employer social security and MEI) plus the employer share of the
    solidarity quota; for a positive gross salary it exceeds the gross
    salary, and up to 53,760 it is 131.22% of it. *)
Theorem total_employer_cost (p : SalaryParams) :
  totalCoste (calculationResult p)
  == grossSalary p + Math_min (grossSalary p) 53760 * 0.3122
     + 0.8339 * totalSolidarityQuota (grossSalary p)
  /\ (0 < grossSalary p -> grossSalary p < totalCoste (calculationResult p))
  /\ (grossSalary p <= 53760 ->
      totalCoste (calculationResult p) == grossSalary p * 1.3122).
Proof.
  set (g := grossSalary p).
  assert (E : totalCoste (calculationResult p)
              == g + Math_min g 53760 * 0.3122
                 + 0.8339 * totalSolidarityQuota g).
  { unfold totalCoste, calculationResult.
    cbn [grossAnnual employerSocialSecurity meiEmployer
         solidarityQuotaEmployer].
    fold g. destruct (solidarity_shares g) as [He _]. rewrite He.
    unfold calculateEmployerSocialSecurity, calculateMEI. cbv zeta.
    cbn [mei_meiEmployer]. ring. }
  split; [exact E|]. rewrite E.
  destruct (totalSolidarityQuota_cases g)
    as [(?&Eq)|[(?&?&Eq)|[(?&?&Eq)|(?&Eq)]]]; rewrite Eq;
  destruct (Q.min_spec g 53760) as [[? Hm]|[? Hm]];
  unfold Math_min; rewrite Hm; split; intro; lra.
Qed.

Lemma total_employer_cost_witness :
  35000 < totalCoste (calculationResult sampleParams)
  /\ totalCoste (calculationResult sampleParams) == 35000 * 1.3122.
Proof.
  destruct (total_employer_cost sampleParams) as (_ & A & B).
  split.
  - apply A. reflexivity.
  - apply B. unfold Qle; simpl; lia.
Defined.

(** The tooltip percentage of a slice when the gross salary is not 0. *)
Lemma doughnutPercentage_value (p : SalaryParams) (v : Q) :
  ~ grossSalary p == 0 ->
  doughnutPercentage (calculationResult p) (Some v)
  = Some (v / grossSalary p * 100).
Proof.
  intro H. unfold doughnutPercentage. cbn [bind].
  change (grossAnnual (calculationResult p)) with (grossSalary p).
  rewrite (div_nonzero _ _ H). reflexivity.
Qed.

(** X19. The doughnut chart shows the net salary, the social-security
    contribution and the withholding as shares of the gross salary, but the
    MEI and solidarity amounts of the worker are in none of the slices: the
    three slices add up to the gross salary less those two amounts, so for
    a positive gross salary the three percentages add up to less than
    100. *)
Theorem doughnut_slices_fall_short_of_gross (p : SalaryParams) :
  0 < grossSalary p ->
  In (region p) regionCodes ->
  exists net irpf pn ps pi,
    doughnutData (calculationResult p)
    = [ Some net;
        Some (socialSecurityContribution (calculationResult p));
        Some irpf ]
    /\ net + socialSecurityContribution (calculationResult p) + irpf
       == grossSalary p - meiWorker (calculationResult p)
          - solidarityQuotaWorker (calculationResult p)
    /\ doughnutPercentage (calculationResult p) (Some net) = Some pn
    /\ doughnutPercentage (calculationResult p)
         (Some (socialSecurityContribution (calculationResult p)))
       = Some ps
    /\ doughnutPercentage (calculationResult p) (Some irpf) = Some pi
    /\ pn + ps + pi < 100.
Proof.
  intros Hg Hin.
  destruct (calculationResult_net p Hin) as (m & _ & _ & _ & Hirpf & Hnet).
  assert (Hnz : ~ grossSalary p == 0) by lra.
  set (g := grossSalary p) in *.
  set (irpf := bracketTax IRPF_BRACKETS
                 (taxableBase g (totalWorkerContributions g) p) 0 * m) in *.
  set (net := g - totalWorkerContributions g - irpf) in *.
  set (ss := socialSecurityContribution (calculationResult p)) in *.
  exists net, irpf, (net / g * 100), (ss / g * 100), (irpf / g * 100).
  assert (Hsum : net + ss + irpf
                 == g - meiWorker (calculationResult p)
                    - solidarityQuotaWorker (calculationResult p)).
  { unfold net, ss, totalWorkerContributions, calculationResult.
    cbn [socialSecurityContribution meiWorker solidarityQuotaWorker].
    fold g. ring. }
  split; [unfold doughnutData; rewrite Hirpf, Hnet; reflexivity|].
  split; [exact Hsum|].
  do 3 (split; [apply doughnutPercentage_value; exact Hnz|]).
  assert (Hmei : 0 < meiWorker (calculationResult p)).
  { destruct (optional_rows_mei p Hg) as [H _]. exact H. }
  assert (Hsol : 0 <= solidarityQuotaWorker (calculationResult p)).
  { unfold calculationResult. cbn [solidarityQuotaWorker]. fold g.
    destruct (solidarity_shares g) as [_ Hw]. rewrite Hw.
    destruct (totalSolidarityQuota_slope 0 g) as [M _]; [lra|].
    assert (Z0 : totalSolidarityQuota 0 == 0) by reflexivity. lra. }
  assert (Hlt : (net + ss + irpf) / g < 1).
  { apply Qlt_shift_div_r; [exact Hg|]. lra. }
  setoid_replace (net / g * 100 + ss / g * 100 + irpf / g * 100)
    with ((net + ss + irpf) / g * 100) by (field; exact Hnz).
  lra.
Qed.

Lemma doughnut_slices_fall_short_of_gross_witness :
  exists net irpf pn ps pi,
    doughnutData (calculationResult sampleParams)
    = [ Some net;
        Some (socialSecurityContribution (calculationResult sampleParams));
        Some irpf ]
    /\ net + socialSecurityContribution (calculationResult sampleParams)
       + irpf
       == 35000 - meiWorker (calculationResult sampleParams)
          - solidarityQuotaWorker (calculationResult sampleParams)
    /\ doughnutPercentage (calculationResult sampleParams) (Some net)
       = Some pn
    /\ doughnutPercentage (calculationResult sampleParams)
         (Some (socialSecurityContribution (calculationResult sampleParams)))
       = Some ps
    /\ doughnutPercentage (calculationResult sampleParams) (Some irpf)
       = Some pi
    /\ pn + ps + pi < 100.
Proof.
  apply (doughnut_slices_fall_short_of_gross sampleParams).
  - reflexivity.
  - cbn. tauto.
Defined.

End DisplayProperties.

(** ** Validation and the series of the compound interest form *)

Section CompoundSeries.
Import JS CompoundInterestCalculator Variants.

(** X20. [validateInputs] of the compound interest form accepts exactly the
    parameters with an initial balance, a periodic deposit and a rate that
    are not negative and at least one year; the frequency and the deposit
    timing are not checked. *)
Theorem compound_validation_accepts_iff (p : CalculationParams) :
  newErrors p = []
  <-> (0 <= initialBalance p /\ 0 <= periodicDeposit p
       /\ 0 <= annualInterestRate p /\ (1 <= years p)%Z).
Proof.
  unfold newErrors. cbv zeta.
  rewrite !guarded_set_nil.
  destruct (ltb_spec (initialBalance p) 0);
  destruct (ltb_spec (periodicDeposit p) 0);
  destruct (ltb_spec (annualInterestRate p) 0);
  destruct (Z.leb_spec (years p) 0);
  split; intro Hx; decompose [and] Hx; clear Hx;
  try discriminate; try lra; try lia;
  repeat split; first [reflexivity | lra | lia].
Qed.

(** X21. [calculateCompoundInterest] never changes the form parameters and
    always stores the fresh validation errors; when validation fails the
    previous result stays in place, when it passes the new result replaces
    it; running it twice gives the same state as running it once. *)
Theorem calculateCompoundInterest_state (st : State) :
  params (calculateCompoundInterest st) = params st
  /\ errors (calculateCompoundInterest st) = newErrors (params st)
  /\ (newErrors (params st) <> [] ->
      result (calculateCompoundInterest st) = result st)
  /\ (newErrors (params st) = [] ->
      result (calculateCompoundInterest st)
      = Some (calculation (params st)))
  /\ calculateCompoundInterest (calculateCompoundInterest st)
     = calculateCompoundInterest st.
Proof.
  unfold calculateCompoundInterest, validateInputs.
  destruct (newErrors (params st)) as [|e rest] eqn:E;
    cbn [no_keys negb setErrors setResult params errors result];
    rewrite E; cbn [no_keys negb setErrors setResult params errors result].
  - repeat split; try reflexivity. intro H. contradiction.
  - repeat split; try reflexivity. intro H. discriminate H.
Qed.

Lemma calculateCompoundInterest_state_witness :
  result (calculateCompoundInterest
            {| params := {| initialBalance := 10000;
                            periodicDeposit := 500;
                            frequency := 12;
                            depositTiming := end_;
                            annualInterestRate := 7;
                            years := 0 |};
               result := None;
               errors := [] |})
  = None.
Proof.
  destruct (calculateCompoundInterest_state
              {| params := {| initialBalance := 10000;
                              periodicDeposit := 500;
                              frequency := 12;
                              depositTiming := end_;
                              annualInterestRate := 7;
                              years := 0 |};
                 result := None;
                 errors := [] |}) as (_ & _ & H & _).
  apply H. discriminate.
Defined.

Lemma loopYears_length (years : Z) :
  (0 <= years)%Z -> length (loopYears years) = S (Z.to_nat years).
Proof.
  intro H. unfold loopYears. rewrite length_map, length_seq. lia.
Qed.

Lemma loopYears_nth (years : Z) (k : nat) :
  (k <= Z.to_nat years)%nat ->
  (0 <= years)%Z ->
  nth_error (loopYears years) k = Some (Z.of_nat k).
Proof.
  intros Hk H. unfold loopYears.
  rewrite nth_error_map.
  rewrite nth_error_seq.
  replace (Z.to_nat (years + 1)) with (S (Z.to_nat years)) by lia.
  destruct (Nat.ltb_spec k (S (Z.to_nat years))); [reflexivity | lia].
Qed.

Lemma loopYears_nonneg (years k : Z) :
  In k (loopYears years) -> (0 <= k <= years)%Z.
Proof.
  unfold loopYears. rewrite in_map_iff. intros (i & <- & Hi).
  apply in_seq in Hi. lia.
Qed.

(** X22. The series has one snapshot per year from year 0 to the last year, in
    order, and the deposits of the snapshot of year k are the initial
    balance plus k years of periodic deposits. *)
Theorem series_has_one_snapshot_per_year (p : CalculationParams) :
  (0 <= years p)%Z ->
  length (yearlyData (calculation p)) = S (Z.to_nat (years p))
  /\ forall k : nat,
       (k <= Z.to_nat (years p))%nat ->
       exists e,
         nth_error (yearlyData (calculation p)) k = Some e
         /\ year e = Z.of_nat k
         /\ deposits e
            = initialBalance p
              + periodicDeposit p * inject_Z (frequency p)
                * inject_Z (Z.of_nat k).
Proof.
  intro H. unfold calculation. cbn [yearlyData]. split.
  - rewrite length_map. apply loopYears_length, H.
  - intros k Hk. rewrite nth_error_map, (loopYears_nth _ _ Hk H).
    cbn [option_map]. eexists. split; [reflexivity|].
    split; reflexivity.
Qed.

Lemma series_has_one_snapshot_per_year_witness :
  length (yearlyData (calculation {| initialBalance := 10000;
                                     periodicDeposit := 500;
                                     frequency := 12;
                                     depositTiming := end_;
                                     annualInterestRate := 7;
                                     years := 10 |}))
  = 11%nat.
Proof.
  destruct (series_has_one_snapshot_per_year
              {| initialBalance := 10000;
                 periodicDeposit := 500;
                 frequency := 12;
                 depositTiming := end_;
                 annualInterestRate := 7;
                 years := 10 |}) as [H _].
  - cbn. lia.
  - exact H.
Defined.

End CompoundSeries.

(** ** Growth of the balance *)

Section CompoundGrowth.
Import JS CompoundInterestCalculator Variants.

(** With a rate that is not negative and a positive frequency the periodic
    rate and the growth factor are numbers. *)
Lemma growth_defined (r : Q) (n e : Z) :
  0 <= r ->
  (0 < n)%Z ->
  0 <= r / inject_Z n
  /\ (0 < r -> 0 < r / inject_Z n)
  /\ div r (inject_Z n) = Some (r / inject_Z n)
  /\ Math_pow (1 + r / inject_Z n) e = Some ((1 + r / inject_Z n) ^ e).
Proof.
  intros Hr Hn.
  assert (Hq : 0 < inject_Z n).
  { change 0 with (inject_Z 0). rewrite <- Zlt_Qlt. exact Hn. }
  assert (H0 : 0 <= r / inject_Z n).
  { apply Qle_shift_div_l; [exact Hq|]. lra. }
  split; [exact H0|]. split.
  - intro Hpos. apply Qlt_shift_div_l; [exact Hq|]. lra.
  - split.
    + apply div_nonzero. lra.
    + unfold Math_pow.
      destruct (Qeq_bool (1 + r / inject_Z n) 0) eqn:E; [|reflexivity].
      apply Qeq_bool_iff in E. lra.
Qed.

(** Bernoulli's inequality for the growth factor. *)
Lemma growth_at_least_linear (rho : Q) (k : nat) :
  0 <= rho ->
  1 + inject_Z (Z.of_nat k) * rho <= (1 + rho) ^ Z.of_nat k.
Proof.
  intro H. induction k as [|k IH].
  - change (Z.of_nat 0) with 0%Z. change ((1 + rho) ^ 0) with 1.
    change (inject_Z 0) with 0. lra.
  - rewrite Nat2Z.inj_succ. unfold Z.succ.
    rewrite Qpower_plus by lra. rewrite inject_Z_plus.
    change ((1 + rho) ^ 1) with (1 + rho).
    change (inject_Z 1) with 1.
    set (P := (1 + rho) ^ Z.of_nat k) in *.
    set (x := inject_Z (Z.of_nat k)) in *.
    assert (Hx : 0 <= x).
    { unfold x. change 0 with (inject_Z 0). rewrite <- Zle_Qle. lia. }
    nra.
Qed.

Lemma growth_bounds (rho : Q) (e : Z) :
  0 <= rho ->
  (0 <= e)%Z ->
  1 <= (1 + rho) ^ e /\ 1 + inject_Z e * rho <= (1 + rho) ^ e.
Proof.
  intros H He. split.
  - apply Qpower_1_le; [lra | exact He].
  - rewrite <- (Z2Nat.id e He). apply growth_at_least_linear, H.
Qed.

End CompoundGrowth.

Section CompoundProperties.
Import JS CompoundInterestCalculator Variants.

(** X23. The first snapshot is the one of year 0: its balance and its deposits
    are the initial balance and its interest is 0, whatever the rate, the
    deposit and the timing, as long as the frequency is not 0. *)
Theorem year_zero_snapshot_is_initial_balance (p : CalculationParams) :
  frequency p <> 0%Z ->
  (0 <= years p)%Z ->
  exists e b i,
    hd_error (yearlyData (calculation p)) = Some e
    /\ year e = 0%Z
    /\ balance e = Some b /\ b == initialBalance p
    /\ interest e = Some i /\ i == 0
    /\ deposits e == initialBalance p.
Proof.
  intros Hn Hy.
  assert (Hq : ~ inject_Z (frequency p) == 0).
  { unfold Qeq. simpl. lia. }
  set (r := annualInterestRate p / 100).
  assert (Hhd : hd_error (yearlyData (calculation p))
                = Some (yearlyEntry p r 0)).
  { unfold calculation. cbn [yearlyData]. unfold loopYears.
    replace (Z.to_nat (years p + 1)) with (S (Z.to_nat (years p))) by lia.
    reflexivity. }
  assert (Hbal : balance (yearlyEntry p r 0)
                 = Some (initialBalance p * 1 + 0)).
  { unfold yearlyEntry. cbn [balance].
    rewrite (div_nonzero _ _ Hq). cbn [bind].
    rewrite Z.mul_0_r. unfold Math_pow.
    change (0 <? 0)%Z with false. rewrite andb_false_r. cbn [bind].
    rewrite andb_false_r. reflexivity. }
  exists (yearlyEntry p r 0). eexists. eexists.
  split; [exact Hhd|]. split; [reflexivity|].
  split; [exact Hbal|]. split; [ring|].
  split.
  - unfold yearlyEntry in *. cbn [balance interest] in *.
    rewrite Hbal. reflexivity.
  - split.
    + change (inject_Z 0) with 0. ring.
    + unfold yearlyEntry. cbn [deposits]. change (inject_Z 0) with 0. ring.
Qed.

Lemma year_zero_snapshot_is_initial_balance_witness :
  exists e b i,
    hd_error (yearlyData (calculation {| initialBalance := 10000;
                                         periodicDeposit := 500;
                                         frequency := 12;
                                         depositTiming := beginning;
                                         annualInterestRate := 7;
                                         years := 10 |}))
    = Some e
    /\ year e = 0%Z
    /\ balance e = Some b /\ b == 10000
    /\ interest e = Some i /\ i == 0
    /\ deposits e == 10000.
Proof.
  apply (year_zero_snapshot_is_initial_balance
           {| initialBalance := 10000;
              periodicDeposit := 500;
              frequency := 12;
              depositTiming := beginning;
              annualInterestRate := 7;
              years := 10 |}).
  - discriminate.
  - cbn. lia.
Defined.

(** X25. With an annual interest rate of 0 (a deposit that is not negative and
    a frequency that is not 0) no snapshot shows any interest: in every
    year the balance is the deposits made so far. *)
Theorem zero_rate_series_has_no_interest (p : CalculationParams) :
  annualInterestRate p == 0 ->
  0 <= periodicDeposit p ->
  frequency p <> 0%Z ->
  Forall (fun e =>
            exists b i,
              balance e = Some b /\ b == deposits e
              /\ interest e = Some i /\ i == 0)
         (yearlyData (calculation p)).
Proof.
  intros Hr Hd Hn. unfold calculation. cbn [yearlyData].
  rewrite Forall_map, Forall_forall. intros k Hk.
  apply loopYears_nonneg in Hk.
  assert (Hr100 : annualInterestRate p / 100 == 0).
  { rewrite Hr. reflexivity. }
  destruct (zero_rate_growth _ (frequency p) (frequency p * k) Hr100 Hn)
    as (rn & g & Hdiv & Hpow & Hg).
  assert (Hbal : exists b,
             balance (yearlyEntry p (annualInterestRate p / 100) k) = Some b
             /\ b == deposits (yearlyEntry p (annualInterestRate p / 100) k)).
  { unfold yearlyEntry. cbn [balance deposits].
    rewrite Hdiv. cbn [bind]. rewrite Hpow. cbn [bind].
    destruct (gtb_spec (annualInterestRate p / 100) 0) as [Hpos|_]; [lra|].
    destruct (gtb_spec (periodicDeposit p) 0) as [Hpd|Hpd];
      [destruct (Z.gtb_spec k 0) as [Hk0|Hk0]|]; cbn [andb bind];
      (eexists; split; [reflexivity|]); rewrite Hg.
    - ring.
    - assert (k = 0%Z) by lia. subst k. change (inject_Z 0) with 0. ring.
    - assert (Hz : periodicDeposit p == 0) by lra. rewrite Hz. ring. }
  destruct Hbal as (b & Hb & Eb).
  exists b, (b - deposits (yearlyEntry p (annualInterestRate p / 100) k)).
  split; [exact Hb|]. split; [exact Eb|]. split.
  - unfold yearlyEntry in *. cbn [balance interest deposits] in *.
    rewrite Hb. reflexivity.
  - rewrite Eb. ring.
Qed.

Lemma zero_rate_series_has_no_interest_witness :
  Forall (fun e =>
            exists b i,
              balance e = Some b /\ b == deposits e
              /\ interest e = Some i /\ i == 0)
         (yearlyData (calculation {| initialBalance := 10000;
                                     periodicDeposit := 500;
                                     frequency := 12;
                                     depositTiming := end_;
                                     annualInterestRate := 0;
                                     years := 3 |})).
Proof.
  apply (zero_rate_series_has_no_interest
           {| initialBalance := 10000;
              periodicDeposit := 500;
              frequency := 12;
              depositTiming := end_;
              annualInterestRate := 0;
              years := 3 |}).
  - reflexivity.
  - unfold Qle; simpl; lia.
  - discriminate.
Defined.

(** X26. The value of the deposits, and with it the future value, with deposits
    at the beginning of each period is never below the one with deposits at
    the end; with a rate of 0 the timing makes no difference, and the total
    deposits never depend on it. *)
Theorem deposits_at_beginning_never_yield_less (p : CalculationParams) :
  0 <= initialBalance p ->
  0 <= periodicDeposit p ->
  0 <= annualInterestRate p ->
  (0 <= years p)%Z ->
  (0 < frequency p)%Z ->
  exists fe fb,
    futureValue (calculation (withDepositTiming p end_)) = Some fe
    /\ futureValue (calculation (withDepositTiming p beginning)) = Some fb
    /\ fe <= fb
    /\ (annualInterestRate p == 0 -> fb == fe)
    /\ totalDeposits (calculation (withDepositTiming p beginning))
       = totalDeposits (calculation (withDepositTiming p end_)).
Proof.
  intros Hb Hd Hr Hy Hn.
  set (r := annualInterestRate p / 100).
  assert (Hr0 : 0 <= r).
  { unfold r. apply Qle_shift_div_l; [reflexivity|]. lra. }
  destruct (growth_defined r (frequency p) (frequency p * years p) Hr0 Hn)
    as (Hrho & Hrho' & Hdiv & Hpow).
  assert (He : (0 <= frequency p * years p)%Z) by lia.
  destruct (growth_bounds (r / inject_Z (frequency p))
              (frequency p * years p) Hrho He) as [HP1 _].
  unfold calculation.
  cbn [futureValue totalDeposits withDepositTiming initialBalance
       periodicDeposit frequency depositTiming annualInterestRate years].
  fold r. rewrite Hdiv. cbn [bind]. rewrite Hpow. cbn [bind].
  set (rho := r / inject_Z (frequency p)) in *.
  set (P := (1 + rho) ^ (frequency p * years p)) in *.
  destruct (gtb_spec (periodicDeposit p) 0) as [Hpd|Hpd];
    [destruct (gtb_spec r 0) as [Hrp|Hrp]|]; cbn [andb].
  - specialize (Hrho' Hrp).
    assert (Hnz : ~ rho == 0) by lra.
    rewrite (div_nonzero _ _ Hnz). cbn [bind].
    eexists. eexists. split; [reflexivity|]. split; [reflexivity|].
    assert (Hv : 0 <= periodicDeposit p * (P - 1) / rho).
    { apply Qle_shift_div_l; [exact Hrho'|]. nra. }
    split; [nra|]. split; [|reflexivity].
    intro Hz. exfalso. unfold r in Hrp. rewrite Hz in Hrp.
    revert Hrp. apply Qle_not_lt. unfold Qle; simpl; lia.
  - cbn [bind]. eexists. eexists.
    split; [reflexivity|]. split; [reflexivity|].
    split; [lra|]. split; [intros _; reflexivity | reflexivity].
  - cbn [bind]. eexists. eexists.
    split; [reflexivity|]. split; [reflexivity|].
    split; [lra|]. split; [intros _; reflexivity | reflexivity].
Qed.

Lemma deposits_at_beginning_never_yield_less_witness :
  exists fe fb,
    futureValue
      (calculation (withDepositTiming
                      {| initialBalance := 10000;
                         periodicDeposit := 500;
                         frequency := 12;
                         depositTiming := end_;
                         annualInterestRate := 7;
                         years := 2 |} end_)) = Some fe
    /\ futureValue
         (calculation (withDepositTiming
                         {| initialBalance := 10000;
                            periodicDeposit := 500;
                            frequency := 12;
                            depositTiming := end_;
                            annualInterestRate := 7;
                            years := 2 |} beginning)) = Some fb
    /\ fe <= fb.
Proof.
  destruct (deposits_at_beginning_never_yield_less
              {| initialBalance := 10000;
                 periodicDeposit := 500;
                 frequency := 12;
                 depositTiming := end_;
                 annualInterestRate := 7;
                 years := 2 |}) as (fe & fb & He & Hb & Hle & _);
    cbn [initialBalance periodicDeposit annualInterestRate years frequency];
    try (unfold Qle; simpl; lia); try lia.
  exists fe, fb. repeat split; assumption.
Defined.

End CompoundProperties.

Section CompoundMonotone.
Import JS CompoundInterestCalculator Variants.

(** The value of the deposits grows with the growth factor. *)
Lemma annuity_mono (pd rho P1 P2 : Q) :
  0 <= pd -> 0 < rho -> 1 <= P1 -> P1 <= P2 ->
  0 <= pd * (P1 - 1) / rho
  /\ pd * (P1 - 1) / rho <= pd * (P2 - 1) / rho.
Proof.
  intros Hpd Hrho H1 H12.
  assert (Hinv : 0 <= / rho) by (apply Qinv_le_0_compat; lra).
  unfold Qdiv. split.
  - apply Qmult_le_0_compat; [nra | exact Hinv].
  - apply Qmult_le_compat_r; [nra | exact Hinv].
Qed.

(** From one year to the next the balance does not decrease. *)
Lemma yearlyEntry_balance_mono (p : CalculationParams) (k : Z) :
  0 <= initialBalance p ->
  0 <= periodicDeposit p ->
  0 <= annualInterestRate p ->
  (0 < frequency p)%Z ->
  (0 <= k)%Z ->
  exists b1 b2,
    balance (yearlyEntry p (annualInterestRate p / 100) k) = Some b1
    /\ balance (yearlyEntry p (annualInterestRate p / 100) (k + 1)) = Some b2
    /\ b1 <= b2.
Proof.
  intros Hb Hd Hr Hn Hk.
  set (r := annualInterestRate p / 100).
  assert (Hr0 : 0 <= r).
  { unfold r. apply Qle_shift_div_l; [reflexivity|]. lra. }
  destruct (growth_defined r (frequency p) (frequency p * k) Hr0 Hn)
    as (Hrho & Hrho' & Hdiv & Hpow1).
  destruct (growth_defined r (frequency p) (frequency p * (k + 1)) Hr0 Hn)
    as (_ & _ & _ & Hpow2).
  destruct (growth_bounds (r / inject_Z (frequency p)) (frequency p * k)
              Hrho ltac:(lia)) as [HP1 _].
  assert (HP12 : (1 + r / inject_Z (frequency p)) ^ (frequency p * k)
                 <= (1 + r / inject_Z (frequency p))
                    ^ (frequency p * (k + 1))).
  { apply Qpower_le_compat_l; [lia | lra]. }
  unfold yearlyEntry. cbn [balance].
  rewrite Hdiv. cbn [bind]. rewrite Hpow1, Hpow2. cbn [bind].
  set (rho := r / inject_Z (frequency p)) in *.
  set (P1 := (1 + rho) ^ (frequency p * k)) in *.
  set (P2 := (1 + rho) ^ (frequency p * (k + 1))) in *.
  set (n := inject_Z (frequency p)) in *.
  assert (Hn0 : 0 <= n).
  { unfold n. change 0 with (inject_Z 0). rewrite <- Zle_Qle. lia. }
  assert (Ht : 0 <= inject_Z k /\ inject_Z k <= inject_Z (k + 1)).
  { split; [change 0 with (inject_Z 0)|]; rewrite <- Zle_Qle; lia. }
  destruct Ht as [Ht0 Ht1].
  assert (HibP : initialBalance p * P1 <= initialBalance p * P2) by nra.
  destruct (Z.gtb_spec (k + 1) 0) as [_|Hx]; [|lia].
  destruct (gtb_spec (periodicDeposit p) 0) as [Hpd|Hpd]; cbn [andb].
  - destruct (gtb_spec r 0) as [Hrp|Hrp].
    + specialize (Hrho' Hrp).
      assert (Hnz : ~ rho == 0) by lra.
      rewrite !(div_nonzero _ _ Hnz). cbn [bind].
      destruct (annuity_mono (periodicDeposit p) rho P1 P2 Hd Hrho' HP1 HP12)
        as [Hv0 Hv12].
      assert (Hv2 : 0 <= periodicDeposit p * (P2 - 1) / rho) by lra.
      destruct (Z.gtb_spec k 0) as [Hk0|Hk0];
        destruct (depositTiming p); cbn [bind];
        (eexists; eexists; split; [reflexivity|]; split; [reflexivity|]);
        nra.
    + assert (Hc : 0 <= periodicDeposit p * n) by nra.
      set (c := periodicDeposit p * n) in *.
      destruct (Z.gtb_spec k 0) as [Hk0|Hk0]; cbn [bind];
        (eexists; eexists; split; [reflexivity|]; split; [reflexivity|]);
        nra.
  - cbn [bind]. eexists; eexists.
    split; [reflexivity|]. split; [reflexivity|]. lra.
Qed.

(** X27. For a valid input with a positive frequency the balance of the series
    never decreases from one snapshot to the next. *)
Theorem balance_never_decreases (p : CalculationParams) (k : nat) :
  0 <= initialBalance p ->
  0 <= periodicDeposit p ->
  0 <= annualInterestRate p ->
  (0 < frequency p)%Z ->
  (S k <= Z.to_nat (years p))%nat ->
  exists e1 e2 b1 b2,
    nth_error (yearlyData (calculation p)) k = Some e1
    /\ nth_error (yearlyData (calculation p)) (S k) = Some e2
    /\ balance e1 = Some b1
    /\ balance e2 = Some b2
    /\ b1 <= b2.
Proof.
  intros Hb Hd Hr Hn Hk.
  assert (Hy : (0 <= years p)%Z) by lia.
  destruct (yearlyEntry_balance_mono p (Z.of_nat k) Hb Hd Hr Hn ltac:(lia))
    as (b1 & b2 & H1 & H2 & Hle).
  exists (yearlyEntry p (annualInterestRate p / 100) (Z.of_nat k)),
         (yearlyEntry p (annualInterestRate p / 100) (Z.of_nat k + 1)),
         b1, b2.
  unfold calculation. cbn [yearlyData].
  rewrite !nth_error_map.
  rewrite (loopYears_nth (years p) k ltac:(lia) Hy).
  rewrite (loopYears_nth (years p) (S k) Hk Hy).
  cbn [option_map].
  replace (Z.of_nat (S k)) with (Z.of_nat k + 1)%Z by lia.
  repeat split; assumption.
Qed.

Lemma balance_never_decreases_witness :
  exists e1 e2 b1 b2,
    nth_error (yearlyData (calculation {| initialBalance := 10000;
                                          periodicDeposit := 500;
                                          frequency := 12;
                                          depositTiming := end_;
                                          annualInterestRate := 7;
                                          years := 2 |})) 0 = Some e1
    /\ nth_error (yearlyData (calculation {| initialBalance := 10000;
                                             periodicDeposit := 500;
                                             frequency := 12;
                                             depositTiming := end_;
                                             annualInterestRate := 7;
                                             years := 2 |})) 1 = Some e2
    /\ balance e1 = Some b1
    /\ balance e2 = Some b2
    /\ b1 <= b2.
Proof.
  apply (balance_never_decreases
           {| initialBalance := 10000;
              periodicDeposit := 500;
              frequency := 12;
              depositTiming := end_;
              annualInterestRate := 7;
              years := 2 |} 0);
    cbn [initialBalance periodicDeposit annualInterestRate years frequency];
    try (unfold Qle; simpl; lia); try lia.
Defined.

End CompoundMonotone.
